(** * retrain.py: the orchestration logic of the transfer-learning script

    The script is glue around an ML framework (TensorFlow/Keras), NumPy, the
    operating system and distutils.  The embedding below keeps the script's
    own logic (path construction, optimizer choice, integer arithmetic, the
    order and arguments of every external call) and takes every external
    call as an oracle of an environment [Env]: the call may return any value
    of its type, raise any exception, and change the world in any way.  A run
    records each external call, with its arguments, its outcome and the world
    before and after it, in a history.  *)

From Stdlib Require Import ZArith String Ascii List Bool Lia.
From stdpp Require Import base option list gmap strings pretty.

Local Open Scope string_scope.
Local Open Scope Z_scope.
Local Open Scope list_scope.
Local Open Scope stdpp_scope.

(** ** Python values *)

(** A Python float is only passed around by the script, never computed
    with: it is represented by its IEEE 754 binary64 bit pattern. *)
Record float := Float64 { float_bits : Z }.

Definition float_1e_3 : float := Float64 0x3F50624DD2F1A9FC.
Definition float_0_9  : float := Float64 0x3FECCCCCCCCCCCCD.
Definition float_0_1  : float := Float64 0x3FB999999999999A.
Definition float_0_2  : float := Float64 0x3FC999999999999A.
Definition float_0_01 : float := Float64 0x3F847AE147AE147B.

Definition nl : string := String "010" "".
Definition tab : string := String "009" "".

(** A Python dict: the items in insertion order, keys unique. *)
Definition pydict (K V : Type) := list (K * V).

Fixpoint dict_get {K V} `{EqDecision K} (d : pydict K V) (k : K) : option V :=
  match d with
  | [] => None
  | (k', v) :: d' => if decide (k = k') then Some v else dict_get d' k
  end.

(** [d[k] = v]: an existing key keeps its position, a new key goes last. *)
Fixpoint dict_set {K V} `{EqDecision K} (d : pydict K V) (k : K) (v : V) : pydict K V :=
  match d with
  | [] => [(k, v)]
  | (k', v') :: d' =>
      if decide (k = k') then (k, v) :: d' else (k', v') :: dict_set d' k v
  end.

Definition dict_items {K V} (d : pydict K V) : list (K * V) := d.
Definition dict_keys {K V} (d : pydict K V) : list K := d.*1.
Definition dict_values {K V} (d : pydict K V) : list V := d.*2.

(** [l[i]] for a Python list and a possibly negative index. *)
Definition py_index {A} (l : list A) (i : Z) : option A :=
  let n := Z.of_nat (length l) in
  if (0 <=? i) && (i <? n) then l !! Z.to_nat i
  else if (- n <=? i) && (i <? 0) then l !! Z.to_nat (n + i)
  else None.

(** ** os.path (posixpath) *)

Module os_path.

Definition startswith (p s : string) : bool := String.prefix p s.

Definition endswith (p s : string) : bool :=
  let n := String.length s in
  let k := String.length p in
  (k <=? n)%nat && String.eqb (String.substring (n - k) k s) p.

(** [posixpath.join(a, b)] *)
Definition join (a b : string) : string :=
  if startswith "/" b then b
  else if String.eqb a "" || endswith "/" a then a +:+ b
  else a +:+ "/" +:+ b.

(** The reversed [p[:i]] with [i = p.rfind('/') + 1], from the reversed [p]. *)
Fixpoint rev_head (rp : list ascii) : list ascii :=
  match rp with
  | [] => []
  | c :: r => if Ascii.eqb c "/" then rp else rev_head r
  end.

(** [rstrip('/')] on a reversed string. *)
Fixpoint rev_rstrip (rp : list ascii) : list ascii :=
  match rp with
  | [] => []
  | c :: r => if Ascii.eqb c "/" then rev_rstrip r else rp
  end.

(** [posixpath.dirname(p)]: everything up to the last slash, without its
    trailing slashes unless it consists of slashes only. *)
Definition dirname (p : string) : string :=
  let head := rev_head (rev (list_ascii_of_string p)) in
  match rev_rstrip head with
  | [] => string_of_list_ascii (rev head)
  | stripped => string_of_list_ascii (rev stripped)
  end.

End os_path.

(** ** Framework objects *)

Inductive keras_optimizer :=
| SGD (lr : float)
| Adam (lr : float)
| MomentumOptimizer (learning_rate momentum : float).

Inductive callback :=
| ModelCheckpoint (filepath : string) (verbose : Z)
| TensorBoard (log_dir : string) (write_graph write_images : bool) (histogram_freq : Z).

(** [tf.keras.preprocessing.image.ImageDataGenerator(...)]: the keyword
    arguments the script sets; [None] is the framework's default. *)
Record ImageDataGenerator := {
  width_shift_range : option float;
  height_shift_range : option float;
  shear_range : option float;
  zoom_range : option float;
  horizontal_flip : bool;
  preprocessing_function : option string
}.

Record Tensor := { tensor_id : nat }.

Record Layer := {
  layer_id : nat;
  layer_name : string;
  layer_output_shape : list (option Z)
}.

Record KModel := {
  model_id : nat;
  model_layers : list Layer;
  model_input : Tensor;
  model_output : Tensor
}.

(** The iterator returned by [flow_from_directory]; [class_indices] is the
    label -> index dict found by its directory scan. *)
Record DirectoryIterator := {
  iterator_id : nat;
  class_indices : pydict string Z
}.

(** The arguments of a [str.format] call, kept next to the template. *)
Inductive fmt_arg :=
| FStr (s : string)
| FInt (n : Z)
| FFloat (x : float)
| FShape (shape : list (option Z)).

(** ** The command-line flags *)

Record Flags := {
  image_dir : string;
  output_labels : string;
  summaries_dir : string;
  how_many_training_steps : Z;
  learning_rate : float;
  train_batch_size : Z;
  test_batch_size : Z;
  validation_batch_size : Z;
  model_dir : string;
  architecture : string;
  optimizer_name : string;
  image_size : Z;
  epochs : Z
}.

(** The defaults of the argument parser. *)
Definition default_FLAGS : Flags := {|
  image_dir := "";
  output_labels := "/tmp/output_labels.txt";
  summaries_dir := "/tmp/retrain_logs";
  how_many_training_steps := 200;
  learning_rate := float_0_01;
  train_batch_size := 100;
  test_batch_size := -1;
  validation_batch_size := 100;
  model_dir := "tf_files/models/retrained";
  architecture := "mobilenetv2_1.0_224";
  optimizer_name := "sgd";
  image_size := 224;
  epochs := 10
|}.

(** ** Exceptions, outcomes, events *)

Inductive exn :=
| ZeroDivisionError
| IndexError
| ValueError
| KeyError
| OtherError (name : string).

Inductive result (A : Type) :=
| Return (a : A)
| Raise (e : exn).
Arguments Return {A} a.
Arguments Raise {A} e.

(** One constructor per external call: its arguments and its outcome. *)
Inductive event :=
| os_makedirs_ev (name : string) (exist_ok : bool) (r : result unit)
| time_strftime_ev (format : string) (r : result string)
| flow_from_directory_ev (datagen : ImageDataGenerator) (directory : string)
    (target_size : Z * Z) (batch_size : Z) (class_mode : string)
    (r : result DirectoryIterator)
| logger_info_ev (msg : string) (args : list fmt_arg)
| np_save_ev (file : string) (arr : pydict Z string) (r : result unit)
| keras_Input_ev (shape : list Z) (r : result Tensor)
| MobileNetV2_ev (weights : string) (include_top : bool) (input_shape : list Z)
    (input_tensor : Tensor) (pooling : string) (r : result KModel)
| set_trainable_ev (l : Layer) (value : bool) (r : result unit)
| Dense_ev (units : Z) (activation name : string) (x : Tensor) (r : result Tensor)
| keras_Model_ev (inputs outputs : Tensor) (r : result KModel)
| get_layer_ev (m : KModel) (name : string) (r : result Layer)
| summary_ev (m : KModel) (r : result unit)
| compile_ev (m : KModel) (loss : string) (opt : keras_optimizer) (metrics : list string)
    (r : result unit)
| save_keras_model_ev (m : KModel) (saved_model_path : string) (r : result string)
| load_keras_model_ev (saved_model_path : string) (r : result KModel)
| evaluate_generator_ev (m : KModel) (generator : DirectoryIterator) (steps : option Z)
    (r : result (list float))
| fit_generator_ev (m : KModel) (generator : DirectoryIterator)
    (steps_per_epoch epochs : Z) (validation_data : DirectoryIterator)
    (validation_steps : Z) (callbacks : list callback) (r : result unit)
| copy_tree_ev (src dst : string) (r : result (list string))
| clear_session_ev (r : result unit).

(** ** The environment and the monad of the script *)

(** What the outside world answers to each external call, from a world [W]
    of its own (file system, clock, network, framework session). *)
Record Env (W : Type) := {
  env_makedirs : string -> bool -> W -> result unit * W;
  env_strftime : string -> W -> result string * W;
  env_flow_from_directory :
    ImageDataGenerator -> string -> Z * Z -> Z -> string -> W -> result DirectoryIterator * W;
  env_np_save : string -> pydict Z string -> W -> result unit * W;
  env_Input : list Z -> W -> result Tensor * W;
  env_MobileNetV2 : string -> bool -> list Z -> Tensor -> string -> W -> result KModel * W;
  env_set_trainable : Layer -> bool -> W -> result unit * W;
  env_Dense : Z -> string -> string -> Tensor -> W -> result Tensor * W;
  env_Model : Tensor -> Tensor -> W -> result KModel * W;
  env_get_layer : KModel -> string -> W -> result Layer * W;
  env_summary : KModel -> W -> result unit * W;
  env_compile : KModel -> string -> keras_optimizer -> list string -> W -> result unit * W;
  (** [save_keras_model(...).decode("utf-8")]: the path as a [str]; a failure
      of the decoding is one of the oracle's exceptions. *)
  env_save_keras_model : KModel -> string -> W -> result string * W;
  env_load_keras_model : string -> W -> result KModel * W;
  env_evaluate_generator : KModel -> DirectoryIterator -> option Z -> W -> result (list float) * W;
  env_fit_generator :
    KModel -> DirectoryIterator -> Z -> Z -> DirectoryIterator -> Z -> list callback ->
    W -> result unit * W;
  env_copy_tree : string -> string -> W -> result (list string) * W;
  env_clear_session : W -> result unit * W
}.

Section Monad.
Context {W : Type}.

(** One external call of a run. *)
Record step := { before : W; ev : event; after : W }.

Record state := { world : W; history : list step }.

Definition M (A : Type) : Type := state -> result A * state.

Definition ret {A} (a : A) : M A := fun s => (Return a, s).

Definition raise {A} (e : exn) : M A := fun s => (Raise e, s).

Definition bind {A B} (m : M A) (k : A -> M B) : M B :=
  fun s =>
    match m s with
    | (Return a, s') => k a s'
    | (Raise e, s') => (Raise e, s')
    end.

(** An external call: ask the oracle, record the step. *)
Definition call {A} (mk : result A -> event) (oracle : W -> result A * W) : M A :=
  fun s =>
    let (r, w') := oracle (world s) in
    (r, {| world := w';
           history := history s ++ [{| before := world s; ev := mk r; after := w' |}] |}).

(** [logger.info(msg.format(args))] *)
Definition logger_info (msg : string) (args : list fmt_arg) : M unit :=
  fun s =>
    (Return tt,
     {| world := world s;
        history := history s ++
          [{| before := world s; ev := logger_info_ev msg args; after := world s |}] |}).

(** [a // b] on Python ints. *)
Definition floordiv (a b : Z) : M Z :=
  if b =? 0 then raise ZeroDivisionError else ret (a / b).

(** [for x in l: body(x)] *)
Fixpoint for_each {A} (l : list A) (body : A -> M unit) : M unit :=
  match l with
  | [] => ret tt
  | x :: l' => bind (body x) (fun _ => for_each l' body)
  end.

(** [l[i]], raising [IndexError] out of range. *)
Definition index {A} (l : list A) (i : Z) : M A :=
  match py_index l i with
  | Some x => ret x
  | None => raise IndexError
  end.

Definition init (w : W) : state := {| world := w; history := [] |}.

Definition trace (s : state) : list event := map ev (history s).

End Monad.

Arguments step : clear implicits.
Arguments state : clear implicits.
Arguments M : clear implicits.

Declare Scope py_scope.
Delimit Scope py_scope with py.
Notation "x <- m ;; k" := (bind m (fun x => k))
  (at level 100, m at next level, right associativity) : py_scope.
Notation "'do' m ;; k" := (bind m (fun _ => k))
  (at level 100, m at next level, right associativity) : py_scope.

(** ** The script *)

Section Retrain.
Context {W : Type} (env : Env W).
Local Open Scope py_scope.

(** *** External calls *)

Definition os_makedirs (name : string) (exist_ok : bool) : M W unit :=
  call (os_makedirs_ev name exist_ok) (env_makedirs W env name exist_ok).

Definition time_strftime (format : string) : M W string :=
  call (time_strftime_ev format) (env_strftime W env format).

Definition flow_from_directory (datagen : ImageDataGenerator) (directory : string)
    (target_size : Z * Z) (batch_size : Z) (class_mode : string) : M W DirectoryIterator :=
  call (flow_from_directory_ev datagen directory target_size batch_size class_mode)
       (env_flow_from_directory W env datagen directory target_size batch_size class_mode).

Definition np_save (file : string) (arr : pydict Z string) : M W unit :=
  call (np_save_ev file arr) (env_np_save W env file arr).

Definition keras_Input (shape : list Z) : M W Tensor :=
  call (keras_Input_ev shape) (env_Input W env shape).

Definition MobileNetV2 (weights : string) (include_top : bool) (input_shape : list Z)
    (input_tensor : Tensor) (pooling : string) : M W KModel :=
  call (MobileNetV2_ev weights include_top input_shape input_tensor pooling)
       (env_MobileNetV2 W env weights include_top input_shape input_tensor pooling).

Definition set_trainable (l : Layer) (value : bool) : M W unit :=
  call (set_trainable_ev l value) (env_set_trainable W env l value).

Definition Dense (units : Z) (activation name : string) (x : Tensor) : M W Tensor :=
  call (Dense_ev units activation name x) (env_Dense W env units activation name x).

Definition keras_Model (inputs outputs : Tensor) : M W KModel :=
  call (keras_Model_ev inputs outputs) (env_Model W env inputs outputs).

Definition get_layer (m : KModel) (name : string) : M W Layer :=
  call (get_layer_ev m name) (env_get_layer W env m name).

Definition summary (m : KModel) : M W unit :=
  call (summary_ev m) (env_summary W env m).

Definition compile (m : KModel) (loss : string) (opt : keras_optimizer) (metrics : list string)
    : M W unit :=
  call (compile_ev m loss opt metrics) (env_compile W env m loss opt metrics).

Definition save_keras_model (m : KModel) (saved_model_path : string) : M W string :=
  call (save_keras_model_ev m saved_model_path)
       (env_save_keras_model W env m saved_model_path).

Definition load_keras_model (saved_model_path : string) : M W KModel :=
  call (load_keras_model_ev saved_model_path) (env_load_keras_model W env saved_model_path).

Definition evaluate_generator (m : KModel) (generator : DirectoryIterator)
    (steps : option Z) : M W (list float) :=
  call (evaluate_generator_ev m generator steps)
       (env_evaluate_generator W env m generator steps).

Definition fit_generator (m : KModel) (generator : DirectoryIterator)
    (steps_per_epoch epochs : Z) (validation_data : DirectoryIterator)
    (validation_steps : Z) (callbacks : list callback) : M W unit :=
  call (fit_generator_ev m generator steps_per_epoch epochs validation_data
          validation_steps callbacks)
       (env_fit_generator W env m generator steps_per_epoch epochs validation_data
          validation_steps callbacks).

Definition copy_tree (src dst : string) : M W (list string) :=
  call (copy_tree_ev src dst) (env_copy_tree W env src dst).

Definition clear_session : M W unit :=
  call clear_session_ev (env_clear_session W env).

(** [d[k]] for a [k] that is a [str] or [None], raising [KeyError] for a
    missing key. *)
Definition subscript {V} (d : pydict string V) (k : option string) : M W V :=
  match k ≫= dict_get d with
  | Some v => ret v
  | None => raise KeyError
  end.

(** [k in d], for a [k] that is a [str] or [None]. *)
Definition contains {V} (k : option string) (d : pydict string V) : bool :=
  bool_decide (is_Some (k ≫= dict_get d)).

(** *** The functions of retrain.py *)

Definition create_feature_extractor (input_shape : list Z) (fully_trainable : bool)
    : M W KModel :=
  do logger_info (tab +:+ "Creating an MobileNet model with Imagenet weights. ") [] ;;
  input_tensor <- keras_Input input_shape ;;
  base_model <- MobileNetV2 "imagenet" false input_shape input_tensor "avg" ;;
  do for_each (model_layers base_model) (fun l => set_trainable l fully_trainable) ;;
  ret base_model.

Definition add_classifier (base_model : KModel) (num_labels : Z) : M W KModel :=
  do logger_info (tab +:+ "Adding a {} label classifier.") [FInt num_labels] ;;
  let pred_name := "predictions_" +:+ pretty num_labels in
  let x := model_output base_model in
  predictions <- Dense num_labels "softmax" pred_name x ;;
  model <- keras_Model (model_input base_model) predictions ;;
  last <- index (model_layers model) (-1) ;;
  do logger_info (tab +:+ "last layers: {}") [FShape (layer_output_shape last)] ;;
  last_name <- index (model_layers model) (-2) ;;
  last_shape <- index (model_layers model) (-2) ;;
  do logger_info (tab +:+ "last layers: {}, {}")
       [FStr (layer_name last_name); FShape (layer_output_shape last_shape)] ;;
  classifier <- get_layer model pred_name ;;
  do set_trainable classifier true ;;
  ret model.

Definition create_model (num_labels : Z) (input_shape : list Z) (learning_rate : float)
    (optimizer : option string) (fully_trainable : bool) : M W KModel :=
  let available_optimizers : pydict string keras_optimizer :=
    [("sgd", SGD learning_rate); ("adam", Adam learning_rate)] in
  base_model <- create_feature_extractor input_shape fully_trainable ;;
  model <- add_classifier base_model num_labels ;;
  choice <- (if contains optimizer available_optimizers
             then subscript available_optimizers optimizer
             else subscript available_optimizers (Some "sgd")) ;;
  do summary model ;;
  do logger_info "None" [] ;;
  do compile model "categorical_crossentropy" choice ["accuracy"] ;;
  ret model.

Definition create_data_feeders (train_dir val_dir test_dir : string) (batch_size : Z)
    (image_size : Z) : M W (DirectoryIterator * DirectoryIterator * DirectoryIterator) :=
  let train_datagen := {|
    width_shift_range := Some float_0_1;
    height_shift_range := Some float_0_1;
    shear_range := Some float_0_2;
    zoom_range := Some float_0_2;
    horizontal_flip := true;
    preprocessing_function := Some "preprocess_input" |} in
  let datagen := {|
    width_shift_range := None;
    height_shift_range := None;
    shear_range := None;
    zoom_range := None;
    horizontal_flip := false;
    preprocessing_function := Some "preprocess_input" |} in
  train_gen <- flow_from_directory train_datagen train_dir (image_size, image_size)
                 batch_size "categorical" ;;
  val_gen <- flow_from_directory datagen val_dir (image_size, image_size)
               batch_size "categorical" ;;
  test_gen <- flow_from_directory datagen test_dir (image_size, image_size)
                batch_size "categorical" ;;
  ret (train_gen, val_gen, test_gen).

Definition create_callbacks (output_model_path summary_dir : string) : list callback :=
  [ ModelCheckpoint output_model_path 1;
    TensorBoard summary_dir true true 0 ].

(** [a, b = l] *)
Definition unpack2 {A} (l : list A) : M W (A * A) :=
  match l with
  | [a; b] => ret (a, b)
  | _ => raise ValueError
  end.

Definition evaluate_model (path : string) (image_gen : DirectoryIterator) : M W unit :=
  model <- load_keras_model path ;;
  do compile model "categorical_crossentropy"
       (MomentumOptimizer float_1e_3 float_0_9) ["accuracy"] ;;
  scores <- evaluate_generator model image_gen None ;;
  unpacked <- unpack2 scores ;;
  let '(_, accuracy) := unpacked in
  logger_info (tab +:+ "Accuracy: {}" +:+ nl) [FFloat accuracy].

(** [{v: k for k, v in trained_classes.items()}]: one item at a time. *)
Definition invert_step (acc : pydict Z string) (item : string * Z) : pydict Z string :=
  let '(k, v) := item in dict_set acc v k.

Definition invert (trained_classes : pydict string Z) : pydict Z string :=
  fold_left invert_step (dict_items trained_classes) [].

Definition save_labels_to_file (train_gen : DirectoryIterator) (labels_file : string)
    : M W unit :=
  do os_makedirs (os_path.dirname labels_file) true ;;
  let trained_classes := class_indices train_gen in
  let classes_by_idx := invert trained_classes in
  do logger_info "Saving trained classes to {}" [FStr labels_file] ;;
  np_save labels_file classes_by_idx.

Definition main (FLAGS : Flags) : M W unit :=
  let train_dir := os_path.join (image_dir FLAGS) "train" in
  let val_dir := os_path.join (image_dir FLAGS) "val" in
  let test_dir := os_path.join (image_dir FLAGS) "test" in
  let checkpoint_dir := os_path.join (os_path.dirname (model_dir FLAGS)) "checkpoints" in
  let checkpoint_path := os_path.join checkpoint_dir "checkpoint.pb" in
  do os_makedirs checkpoint_dir true ;;
  timestamp <- time_strftime "%Y%m%d-%H%M%S" ;;
  let tb_dir := os_path.join (summaries_dir FLAGS) timestamp in

  do logger_info
       (nl +:+ "===" +:+ tab +:+ "Setting up data loaders for train, val and test data.") [] ;;
  feeders <- create_data_feeders train_dir val_dir test_dir
               (train_batch_size FLAGS) (image_size FLAGS) ;;
  let '(train_gen, val_gen, test_gen) := feeders in

  do logger_info
       (nl +:+ "===" +:+ tab +:+ "Saving key file with label names <> index conversion.") [] ;;

  do save_labels_to_file train_gen (output_labels FLAGS) ;;

  do logger_info
       (nl +:+ "===" +:+ tab +:+
        "Creating a classification model based on pre-trained weights.") [] ;;

  let num_train_images := 2055 in
  let num_labels := 5 in

  model <- create_model num_labels [image_size FLAGS; image_size FLAGS; 3]
             (learning_rate FLAGS) (Some (optimizer_name FLAGS)) false ;;

  do logger_info (nl +:+ "===" +:+ tab +:+ "Initial accuracy (before retraining):") [] ;;
  untrained_path <- save_keras_model model checkpoint_dir ;;
  do evaluate_model untrained_path test_gen ;;

  do logger_info
       (nl +:+ "===" +:+ tab +:+ "Preparing Tensorboard callback, to monitor training.") [] ;;

  let callbacks := create_callbacks checkpoint_path tb_dir in

  do logger_info (nl +:+ "===" +:+ tab +:+ "Retraining downloaded model.") [] ;;

  steps_per_epoch <- floordiv num_train_images (train_batch_size FLAGS) ;;

  epochs <- floordiv (how_many_training_steps FLAGS) steps_per_epoch ;;
  do fit_generator model train_gen steps_per_epoch epochs val_gen 5 callbacks ;;

  do logger_info
       (nl +:+ "===" +:+ tab +:+
        "Exporting the model so it can be served (TF Serving, TF Lite, etc.) to: {}")
       [FStr (model_dir FLAGS)] ;;
  output_path <- save_keras_model model checkpoint_dir ;;
  do copy_tree output_path (model_dir FLAGS) ;;

  do logger_info (nl +:+ "===" +:+ tab +:+ "Reporting final model accuracy:") [] ;;
  do evaluate_model (model_dir FLAGS) test_gen ;;

  clear_session.

End Retrain.

(** ** A file system, and what [distutils.dir_util.copy_tree] does to it *)

Module FileSystem.

Inductive entry :=
| File (data : list Byte.byte)
| Dir.

Definition file_data (e : entry) : option (list Byte.byte) :=
  match e with
  | File data => Some data
  | Dir => None
  end.

(** A file system maps a path, given by its components, to what is there.
    Symbolic links, permissions and [..] are outside the model. *)
Abbreviation FS := (gmap (list string) entry).

(** The components of a path string, a component at a time. *)
Fixpoint components (cur : list ascii) (s : list ascii) : list string :=
  match s with
  | [] => [string_of_list_ascii (rev cur)]
  | c :: r =>
      if Ascii.eqb c "/" then string_of_list_ascii (rev cur) :: components [] r
      else components (c :: cur) r
  end.

Definition proper_component (c : string) : bool :=
  negb (String.eqb c "") && negb (String.eqb c ".").

(** The path a string names: empty and [.] components dropped, an absolute
    path marked by a leading ["/"] component. *)
Definition resolve (p : string) : list string :=
  let cs := List.filter proper_component (components [] (list_ascii_of_string p)) in
  if os_path.startswith "/" p then "/" :: cs else cs.

(** [strip d p = Some r] when [p] is [r] below [d]. *)
Fixpoint strip (d p : list string) : option (list string) :=
  match d, p with
  | [], _ => Some p
  | x :: d', y :: p' => if decide (x = y) then strip d' p' else None
  | _ :: _, [] => None
  end.

(** The entries at and below [d], by their path relative to [d]. *)
Definition subtree (d : list string) (fs : FS) : FS :=
  list_to_map
    (omap (fun pe : list string * entry => (fun r => (r, pe.2)) <$> strip d pe.1)
          (map_to_list fs)).

(** The file set of directory [d]: relative path -> bytes. *)
Definition listing (d : list string) (fs : FS) : gmap (list string) (list Byte.byte) :=
  omap file_data (subtree d fs).

(** Neither tree contains the other. *)
Definition disjoint (d1 d2 : list string) : Prop :=
  strip d1 d2 = None /\ strip d2 d1 = None.

Definition is_dir (e : entry) : bool :=
  match e with
  | Dir => true
  | File _ => false
  end.

(** Nothing is below [d] yet, and [d] is not a file. *)
Definition fresh (d : list string) (fs : FS) : Prop :=
  map_Forall (fun p e => strip d p = None \/ (p = d /\ is_dir e = true)) fs.

(** [copy_tree] skips the entries whose name starts with [.nfs]. *)
Definition nfs_name (n : string) : bool := os_path.startswith ".nfs" n.

Definition is_copied (r : list string) : bool := forallb (fun n => negb (nfs_name n)) r.

(** Every entry at or below [src] is one that [copy_tree] copies. *)
Definition all_copied (src : list string) (fs : FS) : Prop :=
  map_Forall (fun p (_ : entry) => default true (is_copied <$> strip src p) = true) fs.

Fixpoint prefixes (d : list string) : list (list string) :=
  [] :: match d with
        | [] => []
        | x :: d' => (x ::.) <$> prefixes d'
        end.

(** [d] and the directories above it, as [mkpath] creates them. *)
Definition mkpath (d : list string) : FS :=
  list_to_map ((fun p => (p, Dir)) <$> prefixes d).

(** The file system after [copy_tree(src, dst)] returned, for a source tree
    and a destination that do not overlap: every entry of the source tree,
    outside the skipped names, is at the same relative path below [dst];
    [dst] and the directories above it exist; every other path keeps what
    it had.  (A source file whose place below [dst] is taken by a directory
    is outside the model.) *)
Definition copy_tree_fs (src dst : list string) (fs : FS) : FS :=
  kmap (dst ++.) (filter (fun re => is_copied re.1 = true) (subtree src fs))
    ∪ (fs ∪ mkpath dst).

End FileSystem.

(** ** A test double of the environment

    A small deterministic environment: an in-memory file system, fresh
    object identifiers, a fixed clock, three classes on disk.  It stands for
    the mocked framework of an integration test. *)

Module Mock.
Import FileSystem.

Record world := {
  fs : FS;
  next_id : nat;
  head : option (string * Z);
  trained : bool
}.

Definition with_fs (w : world) (f : FS) : world :=
  {| fs := f; next_id := next_id w; head := head w; trained := trained w |}.

Definition bump (n : nat) (w : world) : world :=
  {| fs := fs w; next_id := (next_id w + n)%nat; head := head w; trained := trained w |}.

Definition bytes_of (s : string) : list Byte.byte := list_byte_of_string s.

Definition write_file (p : list string) (data : list Byte.byte) (f : FS) : FS :=
  <[p := File data]> (f ∪ mkpath (removelast p)).

Definition makedirs (name : string) (exist_ok : bool) (w : world) : result unit * world :=
  if String.eqb name "" then (Raise (OtherError "FileNotFoundError"), w)
  else match fs w !! resolve name with
       | Some (File _) => (Raise (OtherError "FileExistsError"), w)
       | Some Dir => if exist_ok then (Return tt, w)
                     else (Raise (OtherError "FileExistsError"), w)
       | None => (Return tt, with_fs w (fs w ∪ mkpath (resolve name)))
       end.

Definition strftime (format : string) (w : world) : result string * world :=
  (Return "20181103-101500", w).

Definition flow (datagen : ImageDataGenerator) (directory : string) (target_size : Z * Z)
    (batch_size : Z) (class_mode : string) (w : world) : result DirectoryIterator * world :=
  (Return {| iterator_id := next_id w; class_indices := [("A", 0); ("B", 1); ("C", 2)] |},
   bump 1 w).

Definition npy_name (file : string) : string :=
  if os_path.endswith ".npy" file then file else file +:+ ".npy".

Definition pickle (arr : pydict Z string) : list Byte.byte :=
  bytes_of (String.concat ";" ((fun kv : Z * string => pretty kv.1 +:+ ":" +:+ kv.2) <$> arr)).

Definition save (file : string) (arr : pydict Z string) (w : world) : result unit * world :=
  match fs w !! removelast (resolve (npy_name file)) with
  | Some Dir => (Return tt, with_fs w (write_file (resolve (npy_name file)) (pickle arr) (fs w)))
  | _ => (Raise (OtherError "FileNotFoundError"), w)
  end.

Definition Input (shape : list Z) (w : world) : result Tensor * world :=
  (Return {| tensor_id := next_id w |}, bump 1 w).

Definition pooling_layer : Layer :=
  {| layer_id := 2; layer_name := "global_average_pooling2d";
     layer_output_shape := [None; Some 1280] |}.

Definition backbone (weights : string) (include_top : bool) (input_shape : list Z)
    (input_tensor : Tensor) (pooling : string) (w : world) : result KModel * world :=
  (Return {| model_id := next_id w;
             model_layers :=
               [ {| layer_id := 0; layer_name := "input_1";
                    layer_output_shape := None :: (Some <$> input_shape) |};
                 {| layer_id := 1; layer_name := "Conv1";
                    layer_output_shape := [None; Some 112; Some 112; Some 32] |};
                 pooling_layer ];
             model_input := input_tensor;
             model_output := {| tensor_id := S (next_id w) |} |},
   bump 2 w).

Definition set_trainable (l : Layer) (value : bool) (w : world) : result unit * world :=
  (Return tt, w).

Definition dense (units : Z) (activation name : string) (x : Tensor) (w : world)
    : result Tensor * world :=
  (Return {| tensor_id := next_id w |},
   {| fs := fs w; next_id := S (next_id w); head := Some (name, units);
      trained := trained w |}).

Definition model (inputs outputs : Tensor) (w : world) : result KModel * world :=
  match head w with
  | Some (name, units) =>
      (Return {| model_id := next_id w;
                 model_layers :=
                   [ pooling_layer;
                     {| layer_id := 3; layer_name := name;
                        layer_output_shape := [None; Some units] |} ];
                 model_input := inputs;
                 model_output := outputs |},
       bump 1 w)
  | None => (Raise ValueError, w)
  end.

Definition get_layer (m : KModel) (name : string) (w : world) : result Layer * world :=
  match List.find (fun l => String.eqb (layer_name l) name) (model_layers m) with
  | Some l => (Return l, w)
  | None => (Raise ValueError, w)
  end.

Definition summary (m : KModel) (w : world) : result unit * world := (Return tt, w).

Definition compile (m : KModel) (loss : string) (opt : keras_optimizer)
    (metrics : list string) (w : world) : result unit * world := (Return tt, w).

(** The export writes a new numbered directory below the given one. *)
Definition save_model (m : KModel) (saved_model_path : string) (w : world)
    : result string * world :=
  let export := os_path.join saved_model_path (pretty (1541240000 + Z.of_nat (next_id w))) in
  let d := resolve export in
  let weights := bytes_of (if trained w then "trained weights" else "initial weights") in
  (Return export,
   bump 1 (with_fs w
     (write_file (d ++ ["saved_model.pb"]) (bytes_of "graph")
        (write_file (d ++ ["variables"; "variables.index"]) (bytes_of "index")
           (write_file (d ++ ["variables"; "variables.data-00000-of-00001"]) weights
              (fs w)))))).

Definition load_model (saved_model_path : string) (w : world) : result KModel * world :=
  match fs w !! (resolve saved_model_path ++ ["saved_model.pb"]) with
  | Some (File _) =>
      (Return {| model_id := next_id w; model_layers := [];
                 model_input := {| tensor_id := 0 |};
                 model_output := {| tensor_id := 0 |} |},
       bump 1 w)
  | _ => (Raise (OtherError "OSError"), w)
  end.

Definition evaluate (m : KModel) (generator : DirectoryIterator) (steps : option Z)
    (w : world) : result (list float) * world :=
  (Return [float_0_9; float_0_2], w).

Definition fit (m : KModel) (generator : DirectoryIterator) (steps_per_epoch epochs : Z)
    (validation_data : DirectoryIterator) (validation_steps : Z)
    (callbacks : list callback) (w : world) : result unit * world :=
  (Return tt,
   {| fs := fs w; next_id := next_id w; head := head w; trained := true |}).

Definition copied_names (src dst : string) (f : FS) : list string :=
  (fun re : list string * entry => foldl os_path.join dst re.1)
    <$> List.filter (fun re : list string * entry =>
                       is_copied re.1 && bool_decide (is_Some (file_data re.2)))
                    (map_to_list (subtree (resolve src) f)).

Definition copy (src dst : string) (w : world) : result (list string) * world :=
  match fs w !! resolve src with
  | Some Dir =>
      (Return (copied_names src dst (fs w)),
       with_fs w (copy_tree_fs (resolve src) (resolve dst) (fs w)))
  | _ => (Raise (OtherError "DistutilsFileError"), w)
  end.

Definition clear (w : world) : result unit * world := (Return tt, w).

Definition env : Env world := {|
  env_makedirs := makedirs;
  env_strftime := strftime;
  env_flow_from_directory := flow;
  env_np_save := save;
  env_Input := Input;
  env_MobileNetV2 := backbone;
  env_set_trainable := set_trainable;
  env_Dense := dense;
  env_Model := model;
  env_get_layer := get_layer;
  env_summary := summary;
  env_compile := compile;
  env_save_keras_model := save_model;
  env_load_keras_model := load_model;
  env_evaluate_generator := evaluate;
  env_fit_generator := fit;
  env_copy_tree := copy;
  env_clear_session := clear
|}.

Definition empty_disk : world :=
  {| fs := ∅; next_id := 0; head := None; trained := false |}.

(** A disk on which the output directory of an earlier, different export
    is still present. *)
Definition used_disk : world :=
  with_fs empty_disk
    (write_file ["tf_files"; "models"; "retrained"; "README.txt"] (bytes_of "old") ∅).

End Mock.


(** * Observations on runs *)

(** ** What the statements below speak about *)

(** The optimizer [create_model] compiles with, for a given name. *)
Definition choice (lr : float) (name : string) : keras_optimizer :=
  if String.eqb name "adam" then Adam lr else SGD lr.

(** [logger.info("\n===\tRetraining downloaded model.")], the statement just
    before the two divisions of [main]. *)
Definition retraining_log : event :=
  logger_info_ev (nl +:+ "===" +:+ tab +:+ "Retraining downloaded model.") [].

Definition is_retraining_log (e : event) : bool :=
  match e with
  | logger_info_ev msg [] =>
      String.eqb msg (nl +:+ "===" +:+ tab +:+ "Retraining downloaded model.")
  | _ => false
  end.

Definition accuracy_log (accuracy : float) : event :=
  logger_info_ev (tab +:+ "Accuracy: {}" +:+ nl) [FFloat accuracy].

Definition checkpoint_dir (FLAGS : Flags) : string :=
  os_path.join (os_path.dirname (model_dir FLAGS)) "checkpoints".

(** The calls of a run without the log banners, the construction of the
    feature extractor and the loop over its layers. *)
Definition observable (e : event) : bool :=
  match e with
  | set_trainable_ev _ _ _ | keras_Input_ev _ _ | MobileNetV2_ev _ _ _ _ _ _
  | get_layer_ev _ _ _ | summary_ev _ _ => false
  | logger_info_ev _ [FFloat _] => true
  | logger_info_ev _ _ => false
  | _ => true
  end.

(** What the environment answered in a run that completed. *)
Record answers := {
  timestamp : string;
  train_gen : DirectoryIterator;
  val_gen : DirectoryIterator;
  test_gen : DirectoryIterator;
  base_model : KModel;
  predictions : Tensor;
  model : KModel;
  untrained_path : string;
  untrained_model : KModel;
  untrained_loss : float;
  untrained_accuracy : float;
  output_path : string;
  copied : list string;
  final_model : KModel;
  final_loss : float;
  final_accuracy : float
}.

Definition train_datagen : ImageDataGenerator := {|
  width_shift_range := Some float_0_1;
  height_shift_range := Some float_0_1;
  shear_range := Some float_0_2;
  zoom_range := Some float_0_2;
  horizontal_flip := true;
  preprocessing_function := Some "preprocess_input" |}.

Definition plain_datagen : ImageDataGenerator := {|
  width_shift_range := None;
  height_shift_range := None;
  shear_range := None;
  zoom_range := None;
  horizontal_flip := false;
  preprocessing_function := Some "preprocess_input" |}.

(** The observable calls of a completed run of [main], in order. *)
Definition completed (FLAGS : Flags) (a : answers) : list event :=
  [ os_makedirs_ev (checkpoint_dir FLAGS) true (Return tt);
    time_strftime_ev "%Y%m%d-%H%M%S" (Return (timestamp a));
    flow_from_directory_ev train_datagen
      (os_path.join (image_dir FLAGS) "train") (image_size FLAGS, image_size FLAGS)
      (train_batch_size FLAGS) "categorical" (Return (train_gen a));
    flow_from_directory_ev plain_datagen
      (os_path.join (image_dir FLAGS) "val") (image_size FLAGS, image_size FLAGS)
      (train_batch_size FLAGS) "categorical" (Return (val_gen a));
    flow_from_directory_ev plain_datagen
      (os_path.join (image_dir FLAGS) "test") (image_size FLAGS, image_size FLAGS)
      (train_batch_size FLAGS) "categorical" (Return (test_gen a));
    os_makedirs_ev (os_path.dirname (output_labels FLAGS)) true (Return tt);
    np_save_ev (output_labels FLAGS) (invert (class_indices (train_gen a))) (Return tt);
    Dense_ev 5 "softmax" "predictions_5" (model_output (base_model a))
      (Return (predictions a));
    keras_Model_ev (model_input (base_model a)) (predictions a) (Return (model a));
    compile_ev (model a) "categorical_crossentropy"
      (choice (learning_rate FLAGS) (optimizer_name FLAGS)) ["accuracy"] (Return tt);
    save_keras_model_ev (model a) (checkpoint_dir FLAGS) (Return (untrained_path a));
    load_keras_model_ev (untrained_path a) (Return (untrained_model a));
    compile_ev (untrained_model a) "categorical_crossentropy"
      (MomentumOptimizer float_1e_3 float_0_9) ["accuracy"] (Return tt);
    evaluate_generator_ev (untrained_model a) (test_gen a) None
      (Return [untrained_loss a; untrained_accuracy a]);
    accuracy_log (untrained_accuracy a);
    fit_generator_ev (model a) (train_gen a)
      (2055 / train_batch_size FLAGS)
      (how_many_training_steps FLAGS / (2055 / train_batch_size FLAGS))
      (val_gen a) 5
      (create_callbacks (os_path.join (checkpoint_dir FLAGS) "checkpoint.pb")
         (os_path.join (summaries_dir FLAGS) (timestamp a)))
      (Return tt);
    save_keras_model_ev (model a) (checkpoint_dir FLAGS) (Return (output_path a));
    copy_tree_ev (output_path a) (model_dir FLAGS) (Return (copied a));
    load_keras_model_ev (model_dir FLAGS) (Return (final_model a));
    compile_ev (final_model a) "categorical_crossentropy"
      (MomentumOptimizer float_1e_3 float_0_9) ["accuracy"] (Return tt);
    evaluate_generator_ev (final_model a) (test_gen a) None
      (Return [final_loss a; final_accuracy a]);
    accuracy_log (final_accuracy a);
    clear_session_ev (Return tt) ].

(** *** Projections of a trace *)

(** [(steps_per_epoch, epochs)] of each call of the training loop. *)
Definition fit_calls (t : list event) : list (Z * Z) :=
  flat_map (fun e => match e with
                     | fit_generator_ev _ _ steps_per_epoch epochs _ _ _ _ =>
                         [(steps_per_epoch, epochs)]
                     | _ => []
                     end) t.

(** The number of units of each classification head that is built. *)
Definition dense_units (t : list event) : list Z :=
  flat_map (fun e => match e with
                     | Dense_ev units _ _ _ _ => [units]
                     | _ => []
                     end) t.

(** The directory and batch size of each feeder that is requested. *)
Definition feeder_batch_sizes (t : list event) : list (string * Z) :=
  flat_map (fun e => match e with
                     | flow_from_directory_ev _ directory _ batch_size _ _ =>
                         [(directory, batch_size)]
                     | _ => []
                     end) t.

(** The optimizer of each [compile]. *)
Definition compile_optimizers (t : list event) : list keras_optimizer :=
  flat_map (fun e => match e with
                     | compile_ev _ _ opt _ _ => [opt]
                     | _ => []
                     end) t.

(** The calls that matter to evaluation, training and export. *)
Definition milestone (e : event) : bool :=
  match e with
  | keras_Model_ev _ _ _ | save_keras_model_ev _ _ _ | load_keras_model_ev _ _
  | evaluate_generator_ev _ _ _ _ | fit_generator_ev _ _ _ _ _ _ _ _
  | copy_tree_ev _ _ _ => true
  | logger_info_ev _ [FFloat _] => true
  | _ => false
  end.


Definition is_evaluate (e : event) : bool :=
  match e with
  | evaluate_generator_ev _ _ _ _ => true
  | _ => false
  end.

Definition is_flow (e : event) : bool :=
  match e with
  | flow_from_directory_ev _ _ _ _ _ _ => true
  | _ => false
  end.

(** *** Flags used in examples *)

Definition with_train_batch_size (b : Z) (f : Flags) : Flags := {|
  image_dir := image_dir f;
  output_labels := output_labels f;
  summaries_dir := summaries_dir f;
  how_many_training_steps := how_many_training_steps f;
  learning_rate := learning_rate f;
  train_batch_size := b;
  test_batch_size := test_batch_size f;
  validation_batch_size := validation_batch_size f;
  model_dir := model_dir f;
  architecture := architecture f;
  optimizer_name := optimizer_name f;
  image_size := image_size f;
  epochs := epochs f
|}.

Definition with_eval_batch_sizes (t v : Z) (f : Flags) : Flags := {|
  image_dir := image_dir f;
  output_labels := output_labels f;
  summaries_dir := summaries_dir f;
  how_many_training_steps := how_many_training_steps f;
  learning_rate := learning_rate f;
  train_batch_size := train_batch_size f;
  test_batch_size := t;
  validation_batch_size := v;
  model_dir := model_dir f;
  architecture := architecture f;
  optimizer_name := optimizer_name f;
  image_size := image_size f;
  epochs := epochs f
|}.

Definition with_epochs (e : Z) (f : Flags) : Flags := {|
  image_dir := image_dir f;
  output_labels := output_labels f;
  summaries_dir := summaries_dir f;
  how_many_training_steps := how_many_training_steps f;
  learning_rate := learning_rate f;
  train_batch_size := train_batch_size f;
  test_batch_size := test_batch_size f;
  validation_batch_size := validation_batch_size f;
  model_dir := model_dir f;
  architecture := architecture f;
  optimizer_name := optimizer_name f;
  image_size := image_size f;
  epochs := e
|}.

(** *** The spec's sentences that the code does not satisfy, as stated *)

(** "steps_per_epoch = how_many_training_steps // train_batch_size and
    epochs = how_many_training_steps // steps_per_epoch", of the calls of
    the training loop in a trace. *)
Definition steps_from_step_count (FLAGS : Flags) (t : list event) : Prop :=
  Forall (fun c : Z * Z =>
            c.1 = how_many_training_steps FLAGS / train_batch_size FLAGS /\
            c.2 = how_many_training_steps FLAGS / c.1)
         (fit_calls t).

(** "train_batch_size > how_many_training_steps yields a division-by-zero
    fault", of a run that got as far as the divisions. *)
Definition fault_when_batch_exceeds_steps (FLAGS : Flags) (r : result unit)
    (t : list event) : Prop :=
  how_many_training_steps FLAGS < train_batch_size FLAGS ->
  In retraining_log t -> r = Raise ZeroDivisionError.

Section Statements.
Context {W : Type}.


(** A step of the loop over the layers. *)
Definition is_set_trainable (st : step W) : Prop :=
  exists l b r, ev st = set_trainable_ev l b r.

(** [spec P m R]: whatever the state, the steps [m] adds to the history all
    satisfy [P], and a value it returns satisfies [R]. *)
Definition spec {A} (P : step W -> Prop) (m : M W A) (R : A -> Prop) : Prop :=
  forall s, exists T,
    history (m s).2 = history s ++ T /\ Forall P T /\
    forall a, (m s).1 = Return a -> R a.

(** What holds of every external call of every run of [main]. *)
Definition step_inv (env : Env W) (FLAGS : Flags) (st : step W) : Prop :=
  match ev st with
  | flow_from_directory_ev datagen directory target_size batch_size class_mode r =>
      batch_size = train_batch_size FLAGS
  | Dense_ev units activation name x r =>
      units = 5 /\ name = "predictions_5"
  | compile_ev m loss opt metrics r =>
      opt = choice (learning_rate FLAGS) (optimizer_name FLAGS) \/
      opt = MomentumOptimizer float_1e_3 float_0_9
  | fit_generator_ev m g steps_per_epoch epochs vd vs cbs r =>
      train_batch_size FLAGS <> 0 /\
      steps_per_epoch = 2055 / train_batch_size FLAGS /\
      steps_per_epoch <> 0 /\
      epochs = how_many_training_steps FLAGS / steps_per_epoch
  | copy_tree_ev src dst r =>
      dst = model_dir FLAGS /\
      env_copy_tree W env src dst (before st) = (r, after st)
  | _ => True
  end.

End Statements.

(** A copy step of a run in the test double whose source and destination
    do not overlap, whose destination is fresh and whose source has no
    skipped names. *)
Definition copies_to_fresh_dir (st : step Mock.world) : bool :=
  match ev st with
  | copy_tree_ev src dst (Return _) =>
      bool_decide
        (FileSystem.disjoint (FileSystem.resolve src) (FileSystem.resolve dst) /\
         FileSystem.fresh (FileSystem.resolve dst) (Mock.fs (before st)) /\
         FileSystem.all_copied (FileSystem.resolve src) (Mock.fs (before st)))
  | _ => false
  end.

(** The copy step of a run in the test double leaves a file below
    [model_dir] that the export directory does not have. *)
Definition leaves_stale_file (FLAGS : Flags) (st : step Mock.world) : bool :=
  match ev st with
  | copy_tree_ev src dst (Return _) =>
      match FileSystem.listing (FileSystem.resolve (model_dir FLAGS)) (Mock.fs (after st))
              !! ["README.txt"],
            FileSystem.listing (FileSystem.resolve src) (Mock.fs (after st))
              !! ["README.txt"]
      with
      | Some _, None => true
      | _, _ => false
      end
  | _ => false
  end.




(** *** Inputs of the examples *)

Definition three_classes : DirectoryIterator :=
  {| iterator_id := 0; class_indices := [("A", 0); ("B", 1); ("C", 2)] |}.

(** A disk that holds one export, at ["checkpoints/1541240000"]. *)
Definition exported_disk : Mock.world :=
  (Mock.save_model
     {| model_id := 0; model_layers := [];
        model_input := {| tensor_id := 0 |}; model_output := {| tensor_id := 1 |} |}
     "checkpoints" Mock.empty_disk).2.


(** ** Observations used by the further properties *)

(** The callee of a call. *)
Definition kind (e : event) : string :=
  match e with
  | os_makedirs_ev _ _ _ => "os.makedirs"
  | time_strftime_ev _ _ => "time.strftime"
  | flow_from_directory_ev _ _ _ _ _ _ => "flow_from_directory"
  | logger_info_ev _ _ => "logger.info"
  | np_save_ev _ _ _ => "np.save"
  | keras_Input_ev _ _ => "tf.keras.Input"
  | MobileNetV2_ev _ _ _ _ _ _ => "MobileNetV2"
  | set_trainable_ev _ _ _ => "trainable"
  | Dense_ev _ _ _ _ _ => "Dense"
  | keras_Model_ev _ _ _ => "tf.keras.Model"
  | get_layer_ev _ _ _ => "get_layer"
  | summary_ev _ _ => "summary"
  | compile_ev _ _ _ _ _ => "compile"
  | save_keras_model_ev _ _ _ => "save_keras_model"
  | load_keras_model_ev _ _ => "load_keras_model"
  | evaluate_generator_ev _ _ _ _ => "evaluate_generator"
  | fit_generator_ev _ _ _ _ _ _ _ _ => "fit_generator"
  | copy_tree_ev _ _ _ => "copy_tree"
  | clear_session_ev _ => "clear_session"
  end.

(** The exception a call raised, if it raised. *)
Definition raised (e : event) : option exn :=
  match e with
  | os_makedirs_ev _ _ (Raise x) | time_strftime_ev _ (Raise x)
  | flow_from_directory_ev _ _ _ _ _ (Raise x) | np_save_ev _ _ (Raise x)
  | keras_Input_ev _ (Raise x) | MobileNetV2_ev _ _ _ _ _ (Raise x)
  | set_trainable_ev _ _ (Raise x) | Dense_ev _ _ _ _ (Raise x)
  | keras_Model_ev _ _ (Raise x) | get_layer_ev _ _ (Raise x) | summary_ev _ (Raise x)
  | compile_ev _ _ _ _ (Raise x) | save_keras_model_ev _ _ (Raise x)
  | load_keras_model_ev _ (Raise x) | evaluate_generator_ev _ _ _ (Raise x)
  | fit_generator_ev _ _ _ _ _ _ _ (Raise x) | copy_tree_ev _ _ (Raise x)
  | clear_session_ev (Raise x) => Some x
  | _ => None
  end.

(** Every call but the assignments to [trainable]. *)
Definition not_trainable (e : event) : bool :=
  match e with
  | set_trainable_ev _ _ _ => false
  | _ => true
  end.

(** The callees of [main], in the order of the source, without the
    assignments to [trainable] (one per layer of the feature extractor, then
    one for the classifier, after [get_layer]). *)
Definition main_sequence : list string :=
  [ "os.makedirs"; "time.strftime";
    "logger.info";
    "flow_from_directory"; "flow_from_directory"; "flow_from_directory";
    "logger.info";
    "os.makedirs"; "logger.info"; "np.save";
    "logger.info";
    "logger.info"; "tf.keras.Input"; "MobileNetV2";
    "logger.info"; "Dense"; "tf.keras.Model"; "logger.info"; "logger.info"; "get_layer";
    "summary"; "logger.info"; "compile";
    "logger.info";
    "save_keras_model";
    "load_keras_model"; "compile"; "evaluate_generator"; "logger.info";
    "logger.info";
    "logger.info";
    "fit_generator";
    "logger.info";
    "save_keras_model"; "copy_tree";
    "logger.info";
    "load_keras_model"; "compile"; "evaluate_generator"; "logger.info";
    "clear_session" ].

(** The exception of the last call, if the last call raised. *)
Definition last_raised (t : list event) : option exn :=
  fold_left (fun _ e => raised e) t None.

(** The exceptions the script raises itself. *)
Definition own_exception (x : exn) : Prop :=
  x = ZeroDivisionError \/ x = IndexError \/ x = ValueError.

Section FlowStatement.
Context {W : Type}.

(** [flow X m]: the calls [m] makes, the assignments to [trainable] left
    out, are the callees [X] in order, up to the first failure: [m] stops at
    the first call that raises and raises the same exception; when no call
    raised it returns, having made all of [X], or raises an exception of its
    own. *)
Definition flow {A} (X : list string) (m : M W A) : Prop :=
  forall s, exists T,
    history (m s).2 = history s ++ T /\
    (exists rest, X = map kind (List.filter not_trainable (map ev T)) ++ rest) /\
    match (m s).1 with
    | Return _ =>
        map kind (List.filter not_trainable (map ev T)) = X /\
        omap raised (map ev T) = []
    | Raise x =>
        (omap raised (map ev T) = [] /\ own_exception x) \/
        (omap raised (map ev T) = [x] /\ last_raised (map ev T) = Some x)
    end.

End FlowStatement.

Section FurtherStatements.
Context {W : Type}.

(** A step that is neither the log before the divisions nor a call of the
    training loop. *)
Definition quiet (st : step W) : Prop :=
  is_retraining_log (ev st) = false /\ fit_calls [ev st] = [].

Definition no_fit (st : step W) : Prop := fit_calls [ev st] = [].

(** [after_log G m]: in a run of [m] that logs the start of the training,
    the outcome and the calls of the training loop satisfy [G]. *)
Definition after_log {A} (G : result A -> list (Z * Z) -> Prop) (m : M W A) : Prop :=
  forall s, exists T,
    history (m s).2 = history s ++ T /\
    (existsb is_retraining_log (map ev T) = true ->
     G (m s).1 (fit_calls (map ev T))).

(** What [main] asks of the feature extractor and of the feeders, in terms
    of [image_size]. *)
Definition backbone_inv (FLAGS : Flags) (st : step W) : Prop :=
  match ev st with
  | keras_Input_ev shape r => shape = [image_size FLAGS; image_size FLAGS; 3]
  | MobileNetV2_ev weights include_top input_shape input_tensor pooling r =>
      weights = "imagenet" /\ include_top = false /\ pooling = "avg" /\
      input_shape = [image_size FLAGS; image_size FLAGS; 3]
  | flow_from_directory_ev datagen directory target_size batch_size class_mode r =>
      target_size = (image_size FLAGS, image_size FLAGS) /\ class_mode = "categorical"
  | _ => True
  end.

End FurtherStatements.

(** What the divisions of [main] do, by [train_batch_size]. *)
Definition divisions_outcome (FLAGS : Flags) (r : result unit) (fits : list (Z * Z))
    : Prop :=
  (train_batch_size FLAGS = 0 -> r = Raise ZeroDivisionError /\ fits = [])
  /\ (train_batch_size FLAGS <> 0 -> train_batch_size FLAGS <= 2055 ->
      fits = [(2055 / train_batch_size FLAGS,
               how_many_training_steps FLAGS / (2055 / train_batch_size FLAGS))]).

Definition no_slash (s : string) : bool :=
  forallb (fun c => negb (Ascii.eqb c "/")) (list_ascii_of_string s).

Definition is_accuracy_log (e : event) : bool :=
  match e with
  | logger_info_ev _ [FFloat _] => true
  | _ => false
  end.

(** The calls of [add_classifier] that build and unfreeze the head. *)
Definition head_call (e : event) : bool :=
  match e with
  | Dense_ev _ _ _ _ _ | keras_Model_ev _ _ _ | get_layer_ev _ _ _
  | set_trainable_ev _ _ _ => true
  | _ => false
  end.

Definition is_get_layer (e : event) : bool :=
  match e with
  | get_layer_ev _ _ _ => true
  | _ => false
  end.

Definition with_architecture (a : string) (f : Flags) : Flags := {|
  image_dir := image_dir f;
  output_labels := output_labels f;
  summaries_dir := summaries_dir f;
  how_many_training_steps := how_many_training_steps f;
  learning_rate := learning_rate f;
  train_batch_size := train_batch_size f;
  test_batch_size := test_batch_size f;
  validation_batch_size := validation_batch_size f;
  model_dir := model_dir f;
  architecture := a;
  optimizer_name := optimizer_name f;
  image_size := image_size f;
  epochs := epochs f
|}.

Definition with_model_dir (d : string) (f : Flags) : Flags := {|
  image_dir := image_dir f;
  output_labels := output_labels f;
  summaries_dir := summaries_dir f;
  how_many_training_steps := how_many_training_steps f;
  learning_rate := learning_rate f;
  train_batch_size := train_batch_size f;
  test_batch_size := test_batch_size f;
  validation_batch_size := validation_batch_size f;
  model_dir := d;
  architecture := architecture f;
  optimizer_name := optimizer_name f;
  image_size := image_size f;
  epochs := epochs f
|}.

Definition with_training_steps (n : Z) (f : Flags) : Flags := {|
  image_dir := image_dir f;
  output_labels := output_labels f;
  summaries_dir := summaries_dir f;
  how_many_training_steps := n;
  learning_rate := learning_rate f;
  train_batch_size := train_batch_size f;
  test_batch_size := test_batch_size f;
  validation_batch_size := validation_batch_size f;
  model_dir := model_dir f;
  architecture := architecture f;
  optimizer_name := optimizer_name f;
  image_size := image_size f;
  epochs := epochs f
|}.

(** *** More test doubles *)

(** The test double with a framework whose assembled model has a single
    layer. *)
Definition single_layer_env : Env Mock.world := {|
  env_makedirs := Mock.makedirs;
  env_strftime := Mock.strftime;
  env_flow_from_directory := Mock.flow;
  env_np_save := Mock.save;
  env_Input := Mock.Input;
  env_MobileNetV2 := Mock.backbone;
  env_set_trainable := Mock.set_trainable;
  env_Dense := Mock.dense;
  env_Model := fun inputs outputs w =>
    (Return {| model_id := Mock.next_id w; model_layers := [Mock.pooling_layer];
               model_input := inputs; model_output := outputs |},
     Mock.bump 1 w);
  env_get_layer := Mock.get_layer;
  env_summary := Mock.summary;
  env_compile := Mock.compile;
  env_save_keras_model := Mock.save_model;
  env_load_keras_model := Mock.load_model;
  env_evaluate_generator := Mock.evaluate;
  env_fit_generator := Mock.fit;
  env_copy_tree := Mock.copy;
  env_clear_session := Mock.clear
|}.

(** The test double with a framework whose evaluation returns the loss
    only. *)
Definition loss_only_env : Env Mock.world := {|
  env_makedirs := Mock.makedirs;
  env_strftime := Mock.strftime;
  env_flow_from_directory := Mock.flow;
  env_np_save := Mock.save;
  env_Input := Mock.Input;
  env_MobileNetV2 := Mock.backbone;
  env_set_trainable := Mock.set_trainable;
  env_Dense := Mock.dense;
  env_Model := Mock.model;
  env_get_layer := Mock.get_layer;
  env_summary := Mock.summary;
  env_compile := Mock.compile;
  env_save_keras_model := Mock.save_model;
  env_load_keras_model := Mock.load_model;
  env_evaluate_generator := fun m generator steps w => (Return [float_0_9], w);
  env_fit_generator := Mock.fit;
  env_copy_tree := Mock.copy;
  env_clear_session := Mock.clear
|}.

Definition mock_base_model : KModel :=
  {| model_id := 4;
     model_layers := [Mock.pooling_layer];
     model_input := {| tensor_id := 3 |};
     model_output := {| tensor_id := 5 |} |}.

(** The assignments [l.trainable = value] of a run, in order. *)
Definition assignments (t : list event) : list (Layer * bool) :=
  flat_map (fun e => match e with
                     | set_trainable_ev l value (Return _) => [(l, value)]
                     | _ => []
                     end) t.

(** The generators [flow_from_directory] was called on, in order. *)
Definition datagens (t : list event) : list ImageDataGenerator :=
  flat_map (fun e => match e with
                     | flow_from_directory_ev datagen _ _ _ _ _ => [datagen]
                     | _ => []
                     end) t.

(** A generator that only applies [preprocess_input]. *)
Definition augments (g : ImageDataGenerator) : bool :=
  bool_decide (is_Some (width_shift_range g)) || bool_decide (is_Some (height_shift_range g))
  || bool_decide (is_Some (shear_range g)) || bool_decide (is_Some (zoom_range g))
  || horizontal_flip g.

Definition is_np_save (e : event) : bool :=
  match e with
  | np_save_ev _ _ _ => true
  | _ => false
  end.

Definition is_clear_session (e : event) : bool :=
  match e with
  | clear_session_ev _ => true
  | _ => false
  end.

(** The paths [main] hands to its calls once [time.strftime] has answered
    [timestamp]: the clock is not asked again, the one directory created is
    that of the labels file, both exports go to the checkpoint directory,
    and the training loop gets the two callbacks of [create_callbacks], on
    the checkpoint file and on [summaries_dir/timestamp]. *)
Definition paths_after (FLAGS : Flags) (timestamp : string) (e : event) : Prop :=
  match e with
  | os_makedirs_ev name exist_ok r =>
      exist_ok = true /\ name = os_path.dirname (output_labels FLAGS)
  | time_strftime_ev format r => False
  | save_keras_model_ev m saved_model_path r => saved_model_path = checkpoint_dir FLAGS
  | fit_generator_ev m g spe ep vd vs cbs r =>
      cbs = [ ModelCheckpoint (os_path.join (checkpoint_dir FLAGS) "checkpoint.pb") 1;
              TensorBoard (os_path.join (summaries_dir FLAGS) timestamp) true true 0 ]
  | _ => True
  end.

(** A trace that starts with the creation of the checkpoint directory,
    then asks the clock, and from there on uses the paths of
    [paths_after] for the timestamp the clock answered. *)
Definition paths_of_run (FLAGS : Flags) (t : list event) : Prop :=
  exists r rest,
    t = os_makedirs_ev (checkpoint_dir FLAGS) true r :: rest /\
    match r with
    | Raise _ => rest = []
    | Return _ =>
        exists o rest',
          rest = time_strftime_ev "%Y%m%d-%H%M%S" o :: rest' /\
          match o with
          | Return timestamp => Forall (paths_after FLAGS timestamp) rest'
          | Raise _ => rest' = []
          end
    end.

(** * Reasoning about runs *)

(** ** Python dicts *)

Section DictFacts.
Context {K V : Type} `{EqDecision K}.

Lemma dict_get_set_eq (d : pydict K V) (k : K) (v : V) :
  dict_get (dict_set d k v) k = Some v.
Proof.
  induction d as [|[k' v'] d IH]; cbn.
  - rewrite decide_True by reflexivity. reflexivity.
  - destruct (decide (k = k')) as [->|Hne]; cbn.
    + rewrite decide_True by reflexivity. reflexivity.
    + rewrite decide_False by exact Hne. exact IH.
Qed.

Lemma dict_get_set_ne (d : pydict K V) (k k' : K) (v : V) :
  k <> k' -> dict_get (dict_set d k v) k' = dict_get d k'.
Proof.
  intros Hne. induction d as [|[k0 v0] d IH]; cbn.
  - rewrite decide_False by congruence. reflexivity.
  - destruct (decide (k = k0)) as [->|Hk]; cbn.
    + rewrite !decide_False by congruence. reflexivity.
    + destruct (decide (k' = k0)); [reflexivity | exact IH].
Qed.

Lemma dict_get_In (d : pydict K V) (k : K) (v : V) :
  dict_get d k = Some v -> In (k, v) d.
Proof.
  induction d as [|[k' v'] d IH]; cbn; [discriminate|].
  destruct (decide (k = k')) as [->|]; [intros [= ->]; left; reflexivity|].
  intros H. right. exact (IH H).
Qed.

Lemma In_dict_get (d : pydict K V) (k : K) (v : V) :
  NoDup (dict_keys d) -> In (k, v) d -> dict_get d k = Some v.
Proof.
  unfold dict_keys. induction d as [|[k' v'] d IH]; cbn; [intros _ []|].
  intros Hnd [[= -> ->]|Hin].
  - rewrite decide_True by reflexivity. reflexivity.
  - apply NoDup_cons in Hnd as [Hk Hnd].
    destruct (decide (k = k')) as [->|]; [|exact (IH Hnd Hin)].
    exfalso. apply Hk. apply list_elem_of_fmap. exists (k', v).
    split; [reflexivity | apply list_elem_of_In, Hin].
Qed.

End DictFacts.

Section InvertFacts.

Lemma invert_keeps (items : pydict string Z) (acc : pydict Z string) (i : Z) :
  ~ In i (dict_values items) ->
  dict_get (fold_left invert_step items acc) i = dict_get acc i.
Proof.
  unfold dict_values. revert acc.
  induction items as [|[l j] items IH]; intros acc Hni; cbn; [reflexivity|].
  cbn in Hni. rewrite IH by tauto.
  apply dict_get_set_ne. intros ->. tauto.
Qed.

Lemma invert_sound (items : pydict string Z) (acc : pydict Z string) (i : Z) (l : string) :
  dict_get (fold_left invert_step items acc) i = Some l ->
  In (l, i) items \/ dict_get acc i = Some l.
Proof.
  revert acc. induction items as [|[l0 j] items IH]; intros acc; cbn; [tauto|].
  intros H. destruct (IH _ H) as [Hin|Hacc]; [tauto|].
  destruct (decide (j = i)) as [->|Hne].
  - rewrite dict_get_set_eq in Hacc. injection Hacc as ->. tauto.
  - rewrite dict_get_set_ne in Hacc by exact Hne. tauto.
Qed.

Lemma invert_complete (items : pydict string Z) (acc : pydict Z string) (i : Z) (l : string) :
  NoDup (dict_values items) -> In (l, i) items ->
  dict_get (fold_left invert_step items acc) i = Some l.
Proof.
  unfold dict_values. revert acc.
  induction items as [|[l0 j] items IH]; intros acc Hnd; cbn; [intros []|].
  cbn in Hnd. apply NoDup_cons in Hnd as [Hj Hnd].
  intros [[= -> ->]|Hin]; [|exact (IH _ Hnd Hin)].
  rewrite invert_keeps; [apply dict_get_set_eq|].
  intros Hi. apply Hj. apply list_elem_of_In. exact Hi.
Qed.

(** For a one-to-one label -> index dict, the dict comprehension is its
    inverse. *)
Lemma invert_inverse (d : pydict string Z) (i : Z) (l : string) :
  NoDup (dict_keys d) -> NoDup (dict_values d) ->
  dict_get (invert d) i = Some l <-> dict_get d l = Some i.
Proof.
  intros Hk Hv. unfold invert, dict_items. split.
  - intros H. apply invert_sound in H as [Hin|H]; [|discriminate].
    apply In_dict_get; assumption.
  - intros H. apply invert_complete; [assumption|]. apply dict_get_In, H.
Qed.

End InvertFacts.

(** ** The file system under [copy_tree] *)

Section FileSystemFacts.
Import FileSystem.

Lemma strip_app (d r : list string) : strip d (d ++ r) = Some r.
Proof.
  induction d as [|x d IH]; [reflexivity|].
  cbn. rewrite decide_True by reflexivity. exact IH.
Qed.

Lemma strip_Some (d p r : list string) : strip d p = Some r -> p = d ++ r.
Proof.
  revert p. induction d as [|x d IH]; intros [|y p]; cbn; try congruence.
  destruct (decide (x = y)) as [->|]; [|discriminate].
  intros H. rewrite (IH _ H). reflexivity.
Qed.

Lemma strip_None (d p : list string) : strip d p = None -> forall r, p <> d ++ r.
Proof.
  intros H r ->. rewrite strip_app in H. discriminate.
Qed.

Lemma lookup_subtree (d : list string) (fs : FS) (r : list string) :
  subtree d fs !! r = fs !! (d ++ r).
Proof.
  unfold subtree.
  destruct (list_to_map _ !! r) as [e|] eqn:E.
  - apply elem_of_list_to_map_2 in E.
    apply list_elem_of_omap in E as ([p e'] & Hin & Hs). cbn in Hs.
    destruct (strip d p) as [r'|] eqn:Hp; [|discriminate].
    cbn in Hs. injection Hs as -> ->.
    apply strip_Some in Hp as ->.
    apply elem_of_map_to_list in Hin. symmetry. exact Hin.
  - apply not_elem_of_list_to_map in E.
    destruct (fs !! (d ++ r)) as [e|] eqn:F; [|reflexivity].
    exfalso. apply E. apply list_elem_of_fmap. exists (r, e). split; [reflexivity|].
    apply list_elem_of_omap. exists (d ++ r, e). split.
    + apply elem_of_map_to_list. exact F.
    + cbn. rewrite strip_app. reflexivity.
Qed.

Lemma lookup_listing (d : list string) (fs : FS) (r : list string) :
  listing d fs !! r = fs !! (d ++ r) ≫= file_data.
Proof. unfold listing. rewrite lookup_omap, lookup_subtree. reflexivity. Qed.

Lemma elem_of_prefixes (d p : list string) : p ∈ prefixes d -> exists k, d = p ++ k.
Proof.
  revert p. induction d as [|x d IH]; intros p; cbn.
  - intros [->|H]%elem_of_cons; [exists []; reflexivity | inversion H].
  - intros [->|H]%elem_of_cons; [eexists; reflexivity|].
    apply list_elem_of_fmap in H as (q & -> & Hq).
    destruct (IH _ Hq) as (k & ->). exists k. reflexivity.
Qed.

Lemma lookup_mkpath_Some (d p : list string) (e : entry) :
  mkpath d !! p = Some e -> e = Dir /\ exists k, d = p ++ k.
Proof.
  unfold mkpath. intros H. apply elem_of_list_to_map_2 in H.
  apply list_elem_of_fmap in H as (q & [= -> ->] & Hq).
  split; [reflexivity | apply elem_of_prefixes, Hq].
Qed.

(** Below [dst], an entry of the source tree that is copied replaces what
    was there. *)
Lemma lookup_copy_tree_copied (src dst : list string) (fs : FS) (r : list string) (e : entry) :
  fs !! (src ++ r) = Some e -> is_copied r = true ->
  copy_tree_fs src dst fs !! (dst ++ r) = Some e.
Proof.
  intros He Hc. unfold copy_tree_fs.
  apply lookup_union_Some_l.
  rewrite (lookup_kmap (dst ++.)).
  apply map_lookup_filter_Some. rewrite lookup_subtree. split; assumption.
Qed.

(** Everywhere else the file system keeps what it had, or gets a directory
    on the way to [dst]. *)
Lemma lookup_copy_tree_other (src dst : list string) (fs : FS) (p : list string) :
  (forall r, p = dst ++ r -> fs !! (src ++ r) = None \/ is_copied r = false) ->
  copy_tree_fs src dst fs !! p = (fs ∪ mkpath dst) !! p.
Proof.
  intros H. unfold copy_tree_fs.
  apply lookup_union_r.
  apply lookup_kmap_None; [apply _|].
  intros r ->. apply map_lookup_filter_None.
  rewrite lookup_subtree.
  destruct (H r eq_refl) as [Hn|Hc]; [left; exact Hn|].
  right. intros e _. simpl. intros Hc'. rewrite Hc in Hc'. discriminate.
Qed.

Lemma disjoint_not_below (d1 d2 r1 r2 : list string) :
  disjoint d1 d2 -> d1 ++ r1 <> d2 ++ r2.
Proof.
  intros [H12 H21]. revert d2 H12 H21.
  induction d1 as [|x d1 IH]; intros [|y d2]; cbn; try discriminate.
  destruct (decide (x = y)) as [->|Hne]; rewrite ?decide_True by reflexivity.
  - intros H12 H21 [=]. eapply IH; eassumption.
  - intros _ _ [=]. contradiction.
Qed.

Lemma fresh_lookup (d : list string) (fs : FS) (r : list string) :
  fresh d fs -> fs !! (d ++ r) = None \/ (r = [] /\ fs !! d = Some Dir).
Proof.
  intros Hf. destruct (fs !! (d ++ r)) as [e|] eqn:E; [|left; reflexivity].
  right. destruct (Hf _ _ E) as [Hs|[Hd He]].
  - rewrite strip_app in Hs. discriminate.
  - rewrite <- (app_nil_r d) in Hd at 2. apply app_inv_head in Hd as ->.
    rewrite app_nil_r in E. destruct e; [discriminate|]. auto.
Qed.

Lemma all_copied_lookup (src : list string) (fs : FS) (r : list string) :
  all_copied src fs -> is_Some (fs !! (src ++ r)) -> is_copied r = true.
Proof.
  intros Ha [e E]. specialize (Ha _ _ E). cbn beta in Ha.
  rewrite strip_app in Ha. exact Ha.
Qed.

(** A fresh destination, disjoint from the source, whose source has no
    skipped names: after the copy the two file sets are the same. *)
Lemma copy_tree_fresh_listing (src dst : list string) (fs : FS) :
  disjoint src dst ->
  fresh dst fs ->
  all_copied src fs ->
  listing dst (copy_tree_fs src dst fs) = listing src (copy_tree_fs src dst fs).
Proof.
  intros Hd Hf Hn. apply map_eq. intros r. rewrite !lookup_listing.
  assert (copy_tree_fs src dst fs !! (src ++ r) ≫= file_data = fs !! (src ++ r) ≫= file_data)
    as ->.
  { rewrite lookup_copy_tree_other.
    - destruct (fs !! (src ++ r)) as [e|] eqn:E.
      + rewrite (lookup_union_Some_l _ _ _ _ E). reflexivity.
      + rewrite lookup_union_r by exact E.
        destruct (mkpath dst !! (src ++ r)) as [e|] eqn:M; [|reflexivity].
        apply lookup_mkpath_Some in M as [-> _]. reflexivity.
    - intros r' E. exfalso. exact (disjoint_not_below _ _ _ _ Hd E). }
  destruct (fs !! (src ++ r)) as [e|] eqn:E.
  - rewrite (lookup_copy_tree_copied _ _ _ _ _ E); [reflexivity|].
    eapply all_copied_lookup; [exact Hn|]. rewrite E. eexists; reflexivity.
  - rewrite lookup_copy_tree_other.
    + destruct (fresh_lookup _ _ r Hf) as [F|[-> F]].
      * rewrite lookup_union_r by exact F.
        destruct (mkpath dst !! (dst ++ r)) as [e|] eqn:M; [|reflexivity].
        apply lookup_mkpath_Some in M as [-> _]. reflexivity.
      * rewrite app_nil_r in *. rewrite (lookup_union_Some_l _ _ _ _ F). reflexivity.
    + intros r' Hr'. apply app_inv_head in Hr' as <-. left. exact E.
Qed.






End FileSystemFacts.

(** ** Step invariants: a small program logic *)

Section Logic.
Context {W : Type}.
Implicit Types (P : step W -> Prop).

Lemma spec_ret {A} P (a : A) (R : A -> Prop) : R a -> spec P (ret a) R.
Proof.
  intros Ha s. exists []. cbn. rewrite app_nil_r.
  repeat split; [constructor | congruence].
Qed.

Lemma spec_raise {A} P (e : exn) (R : A -> Prop) : spec P (raise e) R.
Proof.
  intros s. exists []. cbn. rewrite app_nil_r.
  repeat split; [constructor | discriminate].
Qed.

Lemma spec_bind {A B} P (m : M W A) (k : A -> M W B) R R' :
  spec P m R -> (forall a, R a -> spec P (k a) R') -> spec P (bind m k) R'.
Proof.
  intros Hm Hk s. unfold bind.
  destruct (Hm s) as (T1 & H1 & F1 & V1).
  destruct (m s) as [[a|e] s1]; cbn in *.
  - destruct (Hk a (V1 a eq_refl) s1) as (T2 & H2 & F2 & V2).
    exists (T1 ++ T2). rewrite H2, H1, app_assoc.
    repeat split; [apply Forall_app; auto | exact V2].
  - exists T1. repeat split; [assumption .. | discriminate].
Qed.

Lemma spec_call {A} P (mk : result A -> event) (oracle : W -> result A * W) R :
  (forall w r w', oracle w = (r, w') -> P {| before := w; ev := mk r; after := w' |}) ->
  (forall a, R a) ->
  spec P (call mk oracle) R.
Proof.
  intros HP HR s. unfold call.
  destruct (oracle (world s)) as [r w'] eqn:E. cbn.
  eexists [_]. repeat split; [|auto].
  constructor; [apply HP, E | constructor].
Qed.

Lemma spec_logger_info P msg args (R : unit -> Prop) :
  (forall w, P {| before := w; ev := logger_info_ev msg args; after := w |}) ->
  R tt -> spec P (logger_info msg args) R.
Proof.
  intros HP HR s. eexists [_]. cbn. repeat split; [|intros []; auto].
  constructor; [apply HP | constructor].
Qed.

Lemma spec_floordiv P a b :
  spec P (floordiv a b) (fun q => b <> 0 /\ q = a / b).
Proof.
  unfold floordiv. destruct (Z.eqb_spec b 0).
  - apply spec_raise.
  - apply spec_ret. auto.
Qed.

Lemma spec_index {A} P (l : list A) i (R : A -> Prop) :
  (forall a, R a) -> spec P (index l i) R.
Proof.
  intros HR. unfold index. destruct (py_index l i); [apply spec_ret, HR | apply spec_raise].
Qed.

Lemma spec_for_each {A} P (l : list A) (body : A -> M W unit) (R : unit -> Prop) :
  (forall x, spec P (body x) (fun _ => True)) -> R tt -> spec P (for_each l body) R.
Proof.
  intros Hb HR. induction l as [|x l IH]; cbn.
  - apply spec_ret, HR.
  - eapply spec_bind; [apply Hb | intros _ _; exact IH].
Qed.

(** The steps of a run from an empty history. *)
Lemma spec_run {A} P (m : M W A) R (w : W) :
  spec P m R -> Forall P (history (m (init w)).2).
Proof.
  intros Hm. destruct (Hm (init w)) as (T & H & F & _).
  rewrite H. exact F.
Qed.

(** The loop over the layers adds nothing but its own steps. *)
Lemma loop_steps (env : Env W) (ls : list Layer) (b : bool) (s : state W) :
  exists T,
    history (for_each ls (fun l => set_trainable env l b) s).2 = history s ++ T /\
    Forall is_set_trainable T.
Proof.
  destruct (spec_for_each is_set_trainable ls (fun l => set_trainable env l b)
              (fun _ => True)) with (s := s) as (T & H & F & _).
  - intros l. apply spec_call; [|auto].
    intros w r w' _. exists l, b, r. reflexivity.
  - exact I.
  - exists T. auto.
Qed.

Lemma loop_unobservable (T : list (step W)) :
  Forall is_set_trainable T -> List.filter observable (map ev T) = [].
Proof.
  induction 1 as [|st T (l & b & r & E) _ IH]; [reflexivity|].
  cbn. rewrite E. exact IH.
Qed.

Lemma loop_no_log (T : list (step W)) :
  Forall is_set_trainable T -> ~ In retraining_log (map ev T).
Proof.
  induction 1 as [|st T (l & b & r & E) _ IH]; [intros []|].
  cbn. rewrite E. intros [[=]|H]. exact (IH H).
Qed.


End Logic.

Lemma retraining_log_is (e : event) : e = retraining_log -> is_retraining_log e = true.
Proof. intros ->. reflexivity. Qed.

(** ** Symbolic execution *)

(** One step: split on the innermost scrutinee of the run. *)
Ltac split_on t :=
  lazymatch t with
  | context [match ?o with pair _ _ => _ end] => split_on o
  | context [match ?o with Return _ => _ | Raise _ => _ end] => split_on o
  | context [match ?o with Some _ => _ | None => _ end] => split_on o
  | context [match ?o with nil => _ | cons _ _ => _ end] => split_on o
  | context [if ?o then _ else _] => split_on o
  | for_each ?l (fun x => set_trainable ?env x ?b) ?s =>
      let H := fresh "Hloop" in
      pose proof (loop_steps env l b s) as H;
      destruct (for_each l (fun x => set_trainable env x b) s) as [[[]|?e] [?w ?h]];
      cbn [history snd] in H; destruct H as (?T & -> & ?HT)
  | set_trainable _ _ _ _ => cbv beta iota zeta delta [set_trainable call]
  | _ =>
      lazymatch type of t with
      | Prop => fail "the run is over"
      | (result _ * _)%type => destruct t as [[?a|?e] ?w] eqn:?
      | _ => destruct t eqn:?
      end
  end.

Ltac run_step :=
  lazymatch goal with |- ?G => split_on G end;
  cbn beta iota zeta delta [world history fst snd].

Ltac unfold_script :=
  cbv beta iota zeta delta
    [main init bind call ret raise os_makedirs time_strftime logger_info create_data_feeders
     flow_from_directory save_labels_to_file np_save create_model create_feature_extractor
     keras_Input MobileNetV2 add_classifier Dense keras_Model index get_layer
     subscript summary compile save_keras_model evaluate_model load_keras_model
     evaluate_generator unpack2 floordiv fit_generator copy_tree clear_session trace];
  cbn beta iota zeta delta [world history fst snd].

Ltac run := unfold_script; repeat run_step; rewrite <- ?app_assoc; cbn [app map ev].

Ltac spec_step :=
  lazymatch goal with
  | |- spec _ (bind (floordiv _ _) _) _ =>
      eapply spec_bind; [apply spec_floordiv | intros ? [? ?]]
  | |- spec _ (bind (ret ?v) _) _ =>
      eapply spec_bind with (R := fun x => x = v); [apply spec_ret; reflexivity | intros ? ->]
  | |- spec _ (bind _ _) _ =>
      eapply spec_bind with (R := fun _ => True); [ | intros ? _ ]
  | |- spec _ (call _ _) _ => apply spec_call; [intros ? ? ? ?; cbn | auto]
  | |- spec _ (logger_info _ _) _ => apply spec_logger_info; [intros; exact I | auto]
  | |- spec _ (ret _) _ => apply spec_ret; exact I
  | |- spec _ (raise _) _ => apply spec_raise
  | |- spec _ (for_each _ _) _ => apply spec_for_each; [intros ? | exact I]
  | |- spec _ (index _ _) _ => apply spec_index; auto
  | |- spec _ (match ?x with pair _ _ => _ end) _ => destruct x
  | |- spec _ (match ?x with Some _ => _ | None => _ end) _ => destruct x
  | |- spec _ (match ?x with nil => _ | cons _ _ => _ end) _ => destruct x
  | |- spec _ (if ?x then _ else _) _ => destruct x eqn:?
  end.

Ltac unfold_calls :=
  unfold os_makedirs, time_strftime, flow_from_directory, np_save, keras_Input, MobileNetV2,
    set_trainable, Dense, keras_Model, get_layer, summary, compile, save_keras_model,
    load_keras_model, evaluate_generator, fit_generator, copy_tree, clear_session.

(** [In e t] is impossible: [t] is explicit up to the steps of the loop. *)
Ltac refute_in H :=
  repeat lazymatch type of H with
    | In _ (_ :: _) =>
        destruct H as [H|H];
        [ solve [ discriminate H
                | apply retraining_log_is in H; lazy in H; discriminate H ] | ]
    | In _ (map ev (?T ++ _)) =>
        rewrite List.map_app in H; apply in_app_or in H; destruct H as [H|H];
        [ solve [ eapply loop_no_log; eassumption ] | cbn [map ev] in H ]
    | In _ (map ev _) => solve [ eapply loop_no_log; eassumption ]
    | In _ [] => destruct H
    end.

(** ** Every run of [main] *)

Section Runs.
Context {W : Type} (env : Env W).

(** The [if]/[else] on the optimizer name computes [choice]. *)
Lemma contains_choice (lr : float) (name : string) :
  (if contains (Some name) [("sgd", SGD lr); ("adam", Adam lr)]
   then subscript (W := W) [("sgd", SGD lr); ("adam", Adam lr)] (Some name)
   else subscript [("sgd", SGD lr); ("adam", Adam lr)] (Some "sgd"))
  = ret (choice lr name).
Proof.
  unfold contains, subscript, choice. cbn [mbind option_bind dict_get].
  destruct (decide (name = "sgd")) as [->|Hs]; [reflexivity|].
  destruct (decide (name = "adam")) as [->|Ha]; [reflexivity|].
  rewrite bool_decide_eq_false_2 by (intros [? [=]]).
  apply String.eqb_neq in Ha. rewrite Ha. reflexivity.
Qed.

(** Every external call of every run satisfies [step_inv]. *)
Lemma main_inv (FLAGS : Flags) : spec (step_inv env FLAGS) (main env FLAGS) (fun _ => True).
Proof.
  unfold main, create_data_feeders, save_labels_to_file, create_model.
  rewrite contains_choice.
  unfold create_feature_extractor, add_classifier, evaluate_model, unpack2.
  unfold_calls.
  repeat spec_step; try exact I; try (subst; unfold step_inv; cbn; auto; fail).
Qed.

(** A run that completes made the calls of [completed], and a run that
    logged the start of the training with a batch size above 2055 ended in
    [ZeroDivisionError]. *)
Lemma main_outcome (FLAGS : Flags) (w : W) :
  ((main env FLAGS (init w)).1 = Return tt ->
   exists a, List.filter observable (trace (main env FLAGS (init w)).2) = completed FLAGS a)
  /\ (2055 < train_batch_size FLAGS ->
      In retraining_log (trace (main env FLAGS (init w)).2) ->
      (main env FLAGS (init w)).1 = Raise ZeroDivisionError).
Proof.
  unfold main, create_model. rewrite contains_choice.
  run.
  all: split;
    [ intros Hr; try discriminate Hr
    | intros Hb Hin;
      first
        [ reflexivity
        | exfalso;
          match goal with
          | H : (2055 / _ =? 0) = false |- _ =>
              apply Z.eqb_neq in H; apply H; apply Z.div_small; lia
          end
        | exfalso; refute_in Hin ] ].
  eexists (Build_answers _ _ _ _ _ _ _ _ _ _ _ _ _ _ _ _).
  cbn [List.filter observable].
  rewrite List.map_app, List.filter_app, loop_unobservable by assumption.
  repeat match goal with u : unit |- _ => destruct u end.
  reflexivity.
Qed.

End Runs.

(** ** Projections of the runs of [main] *)

Section Projections.
Context {W : Type} (env : Env W).

Lemma Forall_flat_map_ev {A} (f : event -> list A) (P : step W -> Prop) (Q : A -> Prop)
    (h : list (step W)) :
  (forall st, P st -> Forall Q (f (ev st))) ->
  Forall P h -> Forall Q (flat_map f (map ev h)).
Proof.
  intros Hf. induction 1 as [|st h Hst _ IH]; cbn; [constructor|].
  apply Forall_app. split; [apply Hf, Hst | exact IH].
Qed.

Lemma flat_map_observable {A} (f : event -> list A) (t : list event) :
  (forall e, observable e = false -> f e = []) ->
  flat_map f (List.filter observable t) = flat_map f t.
Proof.
  intros Hf. induction t as [|e t IH]; cbn; [reflexivity|].
  destruct (observable e) eqn:E; cbn; rewrite IH; [reflexivity|].
  rewrite (Hf e E). reflexivity.
Qed.

Lemma filter_observable (p : event -> bool) (t : list event) :
  (forall e, p e = true -> observable e = true) ->
  List.filter p (List.filter observable t) = List.filter p t.
Proof.
  intros Hp. induction t as [|e t IH]; cbn; [reflexivity|].
  destruct (observable e) eqn:E; cbn; rewrite IH; [reflexivity|].
  destruct (p e) eqn:Pe; [|reflexivity].
  rewrite (Hp e Pe) in E. discriminate.
Qed.

Lemma fit_calls_inv (FLAGS : Flags) (h : list (step W)) :
  Forall (step_inv env FLAGS) h ->
  Forall (fun c : Z * Z =>
            train_batch_size FLAGS <> 0 /\ c.1 = 2055 / train_batch_size FLAGS /\
            c.1 <> 0 /\ c.2 = how_many_training_steps FLAGS / c.1)
         (fit_calls (map ev h)).
Proof.
  apply Forall_flat_map_ev. intros st. unfold step_inv.
  destruct (ev st); intros H; constructor; [exact H | constructor].
Qed.

Lemma dense_units_inv (FLAGS : Flags) (h : list (step W)) :
  Forall (step_inv env FLAGS) h -> Forall (eq 5) (dense_units (map ev h)).
Proof.
  apply Forall_flat_map_ev. intros st. unfold step_inv.
  destruct (ev st); intros H; constructor; [symmetry; apply H | constructor].
Qed.

Lemma feeder_batch_sizes_inv (FLAGS : Flags) (h : list (step W)) :
  Forall (step_inv env FLAGS) h ->
  Forall (fun c : string * Z => c.2 = train_batch_size FLAGS) (feeder_batch_sizes (map ev h)).
Proof.
  apply Forall_flat_map_ev. intros st. unfold step_inv.
  destruct (ev st); intros H; constructor; [exact H | constructor].
Qed.

Lemma fit_calls_completed (FLAGS : Flags) (w : W) :
  (main env FLAGS (init w)).1 = Return tt ->
  fit_calls (trace (main env FLAGS (init w)).2)
  = [(2055 / train_batch_size FLAGS,
      how_many_training_steps FLAGS / (2055 / train_batch_size FLAGS))].
Proof.
  intros Hr. destruct (proj1 (main_outcome env FLAGS w) Hr) as (a & Ha).
  unfold fit_calls. rewrite <- flat_map_observable, Ha; [reflexivity|].
  intros []; try reflexivity; discriminate.
Qed.

Lemma dense_units_completed (FLAGS : Flags) (w : W) :
  (main env FLAGS (init w)).1 = Return tt ->
  dense_units (trace (main env FLAGS (init w)).2) = [5].
Proof.
  intros Hr. destruct (proj1 (main_outcome env FLAGS w) Hr) as (a & Ha).
  unfold dense_units. rewrite <- flat_map_observable, Ha; [reflexivity|].
  intros []; try reflexivity; discriminate.
Qed.

(** Every [compile] of [create_model] carries the optimizer chosen by name. *)
Lemma create_model_compiles_with_choice (num_labels : Z) (input_shape : list Z)
    (lr : float) (name : string) (fully_trainable : bool) (w : W) :
  Forall (eq (choice lr name))
    (compile_optimizers
       (trace (create_model env num_labels input_shape lr (Some name) fully_trainable
                 (init w)).2)).
Proof.
  apply (Forall_flat_map_ev _
           (fun st => match ev st with
                      | compile_ev _ _ opt _ _ => opt = choice lr name
                      | _ => True
                      end)).
  - intros st. destruct (ev st); intros H; constructor; [symmetry; exact H | constructor].
  - apply spec_run with (R := fun _ => True).
    unfold create_model. rewrite contains_choice.
    unfold create_feature_extractor, add_classifier. unfold_calls.
    repeat spec_step; try exact I; reflexivity.
Qed.

End Projections.

(** ** Symbolic execution that keeps what the loop over the layers did *)

Section Exact.
Context {W : Type}.

Lemma py_index_in_range {A} (l : list A) (i : Z) (x : A) :
  py_index l i = Some x -> - Z.of_nat (length l) <= i < Z.of_nat (length l).
Proof.
  unfold py_index.
  destruct (0 <=? i) eqn:E1, (i <? Z.of_nat (length l)) eqn:E2,
    (- Z.of_nat (length l) <=? i) eqn:E3, (i <? 0) eqn:E4; cbn; try discriminate; lia.
Qed.

Lemma py_index_out_of_range {A} (l : list A) (i : Z) :
  py_index l i = None -> i < - Z.of_nat (length l) \/ Z.of_nat (length l) <= i.
Proof.
  unfold py_index. intros H.
  destruct (Z.leb_spec 0 i), (Z.ltb_spec i (Z.of_nat (length l))),
    (Z.leb_spec  (- Z.of_nat (length l)) i), (Z.ltb_spec i 0); cbn in H; try lia.
  - apply lookup_ge_None in H. lia.
  - apply lookup_ge_None in H. lia.
Qed.

Lemma bind_call_eq {A B} (mk : result A -> event) (oracle : W -> result A * W)
    (k : A -> M W B) (s : state W) :
  bind (call mk oracle) k s
  = match oracle (world s) with
    | (Return a, w') =>
        k a {| world := w';
               history := history s ++ [{| before := world s; ev := mk (Return a);
                                           after := w' |}] |}
    | (Raise x, w') =>
        (Raise x,
         {| world := w';
            history := history s ++ [{| before := world s; ev := mk (Raise x);
                                        after := w' |}] |})
    end.
Proof. unfold bind, call. destruct (oracle (world s)) as [[a|x] w']; reflexivity. Qed.

(** The loop over the layers: when it returns it has assigned to every
    layer, in order, and no assignment raised; when it raises, the one
    assignment that raised is the last. *)
Lemma loop_trace (env : Env W) (ls : list Layer) (b : bool) (s : state W) :
  exists T,
    history (for_each ls (fun l => set_trainable env l b) s).2 = history s ++ T /\
    Forall is_set_trainable T /\
    match (for_each ls (fun l => set_trainable env l b) s).1 with
    | Return _ =>
        assignments (map ev T) = map (fun l => (l, b)) ls /\ omap raised (map ev T) = []
    | Raise x => omap raised (map ev T) = [x]
    end.
Proof.
  revert s. induction ls as [|l ls IH]; intros s.
  - exists []. cbn. rewrite app_nil_r. repeat split; constructor.
  - cbn [for_each].
    change (set_trainable env l b)
      with (call (set_trainable_ev l b) (env_set_trainable W env l b)).
    rewrite !bind_call_eq.
    destruct (env_set_trainable W env l b (world s)) as [[[]|x] w1].
    + match goal with |- context [for_each ls _ ?s1] => destruct (IH s1) as (T & H & F & R) end.
      eexists (_ :: T). rewrite H. cbn [history]. rewrite <- app_assoc.
      split; [reflexivity|]. split.
      * constructor; [eexists _, _, _; reflexivity | exact F].
      * destruct (for_each ls _ _).1; cbn [map ev assignments flat_map app omap list_omap raised].
        -- destruct R as [R1 R2]. split; [f_equal; exact R1 | exact R2].
        -- exact R.
    + eexists [_]. cbn [fst snd history]. split; [reflexivity|]. split.
      * constructor; [eexists _, _, _; reflexivity | constructor].
      * reflexivity.
Qed.

Lemma assignments_app (t1 t2 : list event) :
  assignments (t1 ++ t2) = assignments t1 ++ assignments t2.
Proof. apply flat_map_app. Qed.


End Exact.

Ltac index_ranges :=
  repeat match goal with
    | H : py_index _ _ = Some _ |- _ => apply py_index_in_range in H
    | H : py_index _ _ = None |- _ => apply py_index_out_of_range in H
    end.

Ltac split_on_exact t :=
  lazymatch t with
  | context [match ?o with pair _ _ => _ end] => split_on_exact o
  | context [match ?o with Return _ => _ | Raise _ => _ end] => split_on_exact o
  | context [match ?o with Some _ => _ | None => _ end] => split_on_exact o
  | context [match ?o with nil => _ | cons _ _ => _ end] => split_on_exact o
  | context [if ?o then _ else _] => split_on_exact o
  | for_each ?l (fun x => set_trainable ?env x ?b) ?s =>
      let H := fresh "Hloop" in
      pose proof (loop_trace env l b s) as H;
      destruct (for_each l (fun x => set_trainable env x b) s) as [[[]|?e] [?w ?h]];
      cbn [history snd fst] in H; destruct H as (?T & -> & ?HT & ?HA)
  | _ => split_on t
  end.

Ltac run_exact :=
  unfold_script;
  repeat (lazymatch goal with |- ?G => split_on_exact G end;
          cbn beta iota zeta delta [world history fst snd]);
  rewrite <- ?app_assoc; cbn [app map ev].


Section CreateModel.
Context {W : Type} (env : Env W).


End CreateModel.

(** * The claims *)

Section Claims.
Context {W : Type} (env : Env W).

(** C1 (amended).  In every run of [main] the training loop is invoked with
    [steps_per_epoch = 2055 // train_batch_size] (2055 is the hard-coded
    [num_train_images], not [how_many_training_steps]) and
    [epochs = how_many_training_steps // steps_per_epoch]; a run that
    completes invokes it exactly once; for [how_many_training_steps = 200]
    and [train_batch_size = 100] these are 20 and 10. *)
Theorem training_loop_steps_and_epochs (FLAGS : Flags) (w : W) :
  Forall (fun c : Z * Z =>
            c.1 = 2055 / train_batch_size FLAGS /\
            c.2 = how_many_training_steps FLAGS / c.1)
         (fit_calls (trace (main env FLAGS (init w)).2))
  /\ ((main env FLAGS (init w)).1 = Return tt ->
      fit_calls (trace (main env FLAGS (init w)).2)
      = [(2055 / train_batch_size FLAGS,
          how_many_training_steps FLAGS / (2055 / train_batch_size FLAGS))])
  /\ (how_many_training_steps FLAGS = 200 -> train_batch_size FLAGS = 100 ->
      2055 / train_batch_size FLAGS = 20 /\
      how_many_training_steps FLAGS / (2055 / train_batch_size FLAGS) = 10).
Proof.
  split; [|split].
  - eapply Forall_impl.
    + apply (fit_calls_inv env FLAGS). eapply spec_run, main_inv.
    + intros c (_ & H1 & _ & H2). auto.
  - apply fit_calls_completed.
  - intros -> ->. split; reflexivity.
Qed.

(** C2 (amended).  In every run of [main] with [train_batch_size > 2055]
    (the hard-coded image count, not [how_many_training_steps]),
    [steps_per_epoch] is 0, the training loop is never invoked, the run does
    not complete, and a run that got as far as the divisions ends in
    [ZeroDivisionError]. *)
Theorem batch_above_image_count_divides_by_zero (FLAGS : Flags) (w : W) :
  2055 < train_batch_size FLAGS ->
  2055 / train_batch_size FLAGS = 0
  /\ fit_calls (trace (main env FLAGS (init w)).2) = []
  /\ (main env FLAGS (init w)).1 <> Return tt
  /\ (In retraining_log (trace (main env FLAGS (init w)).2) ->
      (main env FLAGS (init w)).1 = Raise ZeroDivisionError).
Proof.
  intros Hb.
  assert (Hz : 2055 / train_batch_size FLAGS = 0) by (apply Z.div_small; lia).
  assert (Hf : fit_calls (trace (main env FLAGS (init w)).2) = []).
  { pose proof (fit_calls_inv env FLAGS _ (spec_run _ _ _ w (main_inv env FLAGS))) as H.
    unfold trace. destruct (fit_calls _) as [|c l]; [reflexivity|].
    apply Forall_cons in H as [(_ & H1 & H2 & _) _]. congruence. }
  repeat split; [exact Hz | exact Hf | | exact (proj2 (main_outcome env FLAGS w) Hb)].
  intros Hr. rewrite (fit_calls_completed env FLAGS w Hr) in Hf. discriminate.
Qed.

(** In every run of [main] all three feeders,
    the validation and the test feeder included, are created with
    [train_batch_size]; [test_batch_size] and [validation_batch_size] are
    never read. *)
Theorem feeders_share_train_batch_size (FLAGS : Flags) (w : W) :
  Forall (fun c : string * Z => c.2 = train_batch_size FLAGS)
         (feeder_batch_sizes (trace (main env FLAGS (init w)).2))
  /\ forall t v, main env (with_eval_batch_sizes t v FLAGS) = main env FLAGS.
Proof.
  split.
  - apply (feeder_batch_sizes_inv env FLAGS). eapply spec_run, main_inv.
  - reflexivity.
Qed.

(** C6.  Every run of [main], whatever the environment answers (and so
    whatever classes the training directory holds), builds the
    classification head with 5 units and computes [steps_per_epoch] as
    [2055 // train_batch_size]; a run that completes builds exactly one
    head and trains exactly once. *)
Theorem head_units_and_image_count_are_constants (FLAGS : Flags) (w : W) :
  Forall (eq 5) (dense_units (trace (main env FLAGS (init w)).2))
  /\ Forall (fun c : Z * Z => c.1 = 2055 / train_batch_size FLAGS)
            (fit_calls (trace (main env FLAGS (init w)).2))
  /\ ((main env FLAGS (init w)).1 = Return tt ->
      dense_units (trace (main env FLAGS (init w)).2) = [5] /\
      (fit_calls (trace (main env FLAGS (init w)).2)).*1 = [2055 / train_batch_size FLAGS]).
Proof.
  split; [|split].
  - apply (dense_units_inv env FLAGS). eapply spec_run, main_inv.
  - eapply Forall_impl.
    + apply (fit_calls_inv env FLAGS). eapply spec_run, main_inv.
    + intros c (_ & H1 & _). exact H1.
  - intros Hr. split; [apply dense_units_completed, Hr|].
    rewrite (fit_calls_completed env FLAGS w Hr). reflexivity.
Qed.

(** C10.  Two configurations that differ only in the [epochs] flag give
    the same computation, so the same run in every world; the epoch count
    handed to the training loop is [how_many_training_steps // (2055 //
    train_batch_size)], whatever the flag. *)
Theorem epochs_flag_is_never_read (FLAGS : Flags) (e : Z) :
  main env (with_epochs e FLAGS) = main env FLAGS
  /\ forall w,
       Forall (fun c : Z * Z =>
                 c.2 = how_many_training_steps FLAGS / (2055 / train_batch_size FLAGS))
              (fit_calls (trace (main env (with_epochs e FLAGS) (init w)).2)).
Proof.
  split; [reflexivity|].
  intros w. eapply Forall_impl.
  - apply (fit_calls_inv env (with_epochs e FLAGS)). eapply spec_run, main_inv.
  - intros c (_ & H1 & _ & H2). cbn in *. congruence.
Qed.


(** C5.  When [save_labels_to_file] writes the label file, it has first
    created the directory of the file ([os.makedirs] returned), and what it
    writes, for a one-to-one label -> index dict of the training feeder, is
    the inverse dict: index [i] maps to label [l] exactly when the feeder
    maps [l] to [i]. *)
Theorem labels_file_holds_inverse_mapping (train_gen : DirectoryIterator)
    (labels_file : string) (w : W) (file : string) (arr : pydict Z string)
    (o : result unit) :
  NoDup (dict_keys (class_indices train_gen)) ->
  NoDup (dict_values (class_indices train_gen)) ->
  In (np_save_ev file arr o)
     (trace (save_labels_to_file env train_gen labels_file (init w)).2) ->
  file = labels_file
  /\ (forall i l, dict_get arr i = Some l <-> dict_get (class_indices train_gen) l = Some i)
  /\ trace (save_labels_to_file env train_gen labels_file (init w)).2
     = [ os_makedirs_ev (os_path.dirname labels_file) true (Return tt);
         logger_info_ev "Saving trained classes to {}" [FStr labels_file];
         np_save_ev file arr o ].
Proof.
  intros Hk Hv. run.
  - intros [[=]|[[=]|[[= <- <- <-]|[]]]].
    destruct a. repeat split; try reflexivity; apply invert_inverse; assumption.
  - intros [[=]|[[=]|[[= <- <- <-]|[]]]].
    destruct a. repeat split; try reflexivity; apply invert_inverse; assumption.
  - intros [[=]|[]].
Qed.

(** In a run of [main] that completes, the dict written to the label file
    is the inverse of the [class_indices] of the feeder created on the
    [train] directory. *)
Lemma main_saves_labels_of_training_feeder (FLAGS : Flags) (w : W) :
  (main env FLAGS (init w)).1 = Return tt ->
  exists a : answers,
    List.filter (fun e => match e with
                          | np_save_ev _ _ _ => true
                          | flow_from_directory_ev _ _ _ _ _ _ => true
                          | _ => false
                          end)
      (trace (main env FLAGS (init w)).2)
    = [ flow_from_directory_ev train_datagen
          (os_path.join (image_dir FLAGS) "train") (image_size FLAGS, image_size FLAGS)
          (train_batch_size FLAGS) "categorical" (Return (train_gen a));
        flow_from_directory_ev plain_datagen
          (os_path.join (image_dir FLAGS) "val") (image_size FLAGS, image_size FLAGS)
          (train_batch_size FLAGS) "categorical" (Return (val_gen a));
        flow_from_directory_ev plain_datagen
          (os_path.join (image_dir FLAGS) "test") (image_size FLAGS, image_size FLAGS)
          (train_batch_size FLAGS) "categorical" (Return (test_gen a));
        np_save_ev (output_labels FLAGS) (invert (class_indices (train_gen a)))
          (Return tt) ].
Proof.
  intros Hr. destruct (proj1 (main_outcome env FLAGS w) Hr) as (a & Ha).
  exists a. rewrite <- filter_observable, Ha; [reflexivity|].
  intros []; try reflexivity; discriminate.
Qed.

(** C7.  [evaluate_model] compiles the model it loaded with
    [MomentumOptimizer(learning_rate=1e-3, momentum=0.9)], which no
    [compile] of [create_model] (the training-time choice) carries; when it
    returns it has loaded the model at [path], compiled it, evaluated it
    once on the given feeder with no step count (the feeder's length: one
    pass), logged the accuracy, and it returns nothing. *)
Theorem evaluate_model_recompiles_with_momentum (path : string)
    (image_gen : DirectoryIterator) (w : W) :
  Forall (eq (MomentumOptimizer float_1e_3 float_0_9))
         (compile_optimizers (trace (evaluate_model env path image_gen (init w)).2))
  /\ (forall num_labels input_shape lr name fully_trainable w',
        Forall (fun opt => opt <> MomentumOptimizer float_1e_3 float_0_9)
          (compile_optimizers
             (trace (create_model env num_labels input_shape lr (Some name) fully_trainable
                       (init w')).2)))
  /\ ((evaluate_model env path image_gen (init w)).1 = Return tt ->
      exists m loss accuracy,
        trace (evaluate_model env path image_gen (init w)).2
        = [ load_keras_model_ev path (Return m);
            compile_ev m "categorical_crossentropy"
              (MomentumOptimizer float_1e_3 float_0_9) ["accuracy"] (Return tt);
            evaluate_generator_ev m image_gen None (Return [loss; accuracy]);
            accuracy_log accuracy ]).
Proof.
  split; [|split].
  - run; cbn; repeat constructor.
  - intros num_labels input_shape lr name fully_trainable w'.
    eapply Forall_impl; [apply create_model_compiles_with_choice|].
    intros opt <-. unfold choice. destruct (String.eqb name "adam"); discriminate.
  - run; intros Hr; try discriminate Hr.
    repeat match goal with u : unit |- _ => destruct u end.
    eexists _, _, _. reflexivity.
Qed.

(** C8.  A run of [main] that completes evaluates exactly twice, both
    times on the test feeder: first the model loaded from the export of the
    freshly assembled model, before the training loop; then the model loaded
    from [model_dir], after the training loop, the export and the copy; each
    accuracy is logged right after. *)
Theorem evaluation_happens_twice (FLAGS : Flags) (w : W) :
  (main env FLAGS (init w)).1 = Return tt ->
  exists a : answers,
    List.filter milestone (trace (main env FLAGS (init w)).2)
    = [ keras_Model_ev (model_input (base_model a)) (predictions a) (Return (model a));
        save_keras_model_ev (model a) (checkpoint_dir FLAGS) (Return (untrained_path a));
        load_keras_model_ev (untrained_path a) (Return (untrained_model a));
        evaluate_generator_ev (untrained_model a) (test_gen a) None
          (Return [untrained_loss a; untrained_accuracy a]);
        accuracy_log (untrained_accuracy a);
        fit_generator_ev (model a) (train_gen a)
          (2055 / train_batch_size FLAGS)
          (how_many_training_steps FLAGS / (2055 / train_batch_size FLAGS))
          (val_gen a) 5
          (create_callbacks (os_path.join (checkpoint_dir FLAGS) "checkpoint.pb")
             (os_path.join (summaries_dir FLAGS) (timestamp a)))
          (Return tt);
        save_keras_model_ev (model a) (checkpoint_dir FLAGS) (Return (output_path a));
        copy_tree_ev (output_path a) (model_dir FLAGS) (Return (copied a));
        load_keras_model_ev (model_dir FLAGS) (Return (final_model a));
        evaluate_generator_ev (final_model a) (test_gen a) None
          (Return [final_loss a; final_accuracy a]);
        accuracy_log (final_accuracy a) ]
    /\ List.filter is_flow (trace (main env FLAGS (init w)).2)
       = [ flow_from_directory_ev train_datagen
             (os_path.join (image_dir FLAGS) "train") (image_size FLAGS, image_size FLAGS)
             (train_batch_size FLAGS) "categorical" (Return (train_gen a));
           flow_from_directory_ev plain_datagen
             (os_path.join (image_dir FLAGS) "val") (image_size FLAGS, image_size FLAGS)
             (train_batch_size FLAGS) "categorical" (Return (val_gen a));
           flow_from_directory_ev plain_datagen
             (os_path.join (image_dir FLAGS) "test") (image_size FLAGS, image_size FLAGS)
             (train_batch_size FLAGS) "categorical" (Return (test_gen a)) ]
    /\ length (List.filter is_evaluate (trace (main env FLAGS (init w)).2)) = 2%nat.
Proof.
  intros Hr. destruct (proj1 (main_outcome env FLAGS w) Hr) as (a & Ha).
  exists a. repeat split.
  - rewrite <- filter_observable, Ha; [reflexivity|].
    intros [| | |msg [|[] []]| | | | | | | | | | | | | | |]; try reflexivity; discriminate.
  - rewrite <- filter_observable, Ha; [reflexivity|].
    intros []; try reflexivity; discriminate.
  - rewrite <- filter_observable, Ha; [reflexivity|].
    intros []; try reflexivity; discriminate.
Qed.


End Claims.

Lemma is_retraining_log_In (t : list event) :
  existsb is_retraining_log t = true -> In retraining_log t.
Proof.
  intros H. apply existsb_exists in H as (e & Hin & He).
  destruct e as [| | |msg [|]| | | | | | | | | | | | | | |]; try discriminate He.
  apply String.eqb_eq in He. subst msg. exact Hin.
Qed.

(** C1, as the spec states it, fails on the default flags: with
    [how_many_training_steps = 200] and [train_batch_size = 100] the
    training loop gets 20 steps per epoch and 10 epochs, not 2 and 100. *)
Lemma default_run_refutes_step_count_formula :
  ~ steps_from_step_count default_FLAGS
      (trace (main Mock.env default_FLAGS (init Mock.empty_disk)).2).
Proof.
  unfold steps_from_step_count.
  replace (fit_calls _) with [(20, 10)] by (vm_compute; reflexivity).
  intros H. apply Forall_cons in H as [[H _] _].
  vm_compute in H. discriminate H.
Qed.

Lemma training_loop_steps_and_epochs_witness :
  (main Mock.env default_FLAGS (init Mock.empty_disk)).1 = Return tt
  /\ how_many_training_steps default_FLAGS = 200
  /\ train_batch_size default_FLAGS = 100
  /\ fit_calls (trace (main Mock.env default_FLAGS (init Mock.empty_disk)).2) = [(20, 10)].
Proof.
  assert (Hr : (main Mock.env default_FLAGS (init Mock.empty_disk)).1 = Return tt)
    by (vm_compute; reflexivity).
  split; [exact Hr|]. split; [reflexivity|]. split; [reflexivity|].
  destruct (training_loop_steps_and_epochs Mock.env default_FLAGS Mock.empty_disk)
    as (_ & H & _).
  exact (H Hr).
Defined.

(** C2, as the spec states it, fails for a batch size of 300 and 200
    training steps: the divisions are reached and the run completes. *)
Lemma batch_300_refutes_division_fault :
  ~ fault_when_batch_exceeds_steps (with_train_batch_size 300 default_FLAGS)
      (main Mock.env (with_train_batch_size 300 default_FLAGS) (init Mock.empty_disk)).1
      (trace (main Mock.env (with_train_batch_size 300 default_FLAGS)
                (init Mock.empty_disk)).2).
Proof.
  intros H.
  assert (Hr : (main Mock.env (with_train_batch_size 300 default_FLAGS)
                  (init Mock.empty_disk)).1 = Return tt) by (vm_compute; reflexivity).
  rewrite H in Hr; [discriminate Hr | reflexivity |].
  apply is_retraining_log_In. vm_compute. reflexivity.
Qed.

Lemma batch_above_image_count_divides_by_zero_witness :
  2055 < train_batch_size (with_train_batch_size 3000 default_FLAGS)
  /\ In retraining_log
        (trace (main Mock.env (with_train_batch_size 3000 default_FLAGS)
                  (init Mock.empty_disk)).2)
  /\ (main Mock.env (with_train_batch_size 3000 default_FLAGS) (init Mock.empty_disk)).1
     = Raise ZeroDivisionError.
Proof.
  assert (Hb : 2055 < train_batch_size (with_train_batch_size 3000 default_FLAGS))
    by reflexivity.
  assert (Hin : In retraining_log
                  (trace (main Mock.env (with_train_batch_size 3000 default_FLAGS)
                            (init Mock.empty_disk)).2))
    by (apply is_retraining_log_In; vm_compute; reflexivity).
  split; [exact Hb|]. split; [exact Hin|].
  destruct (batch_above_image_count_divides_by_zero Mock.env
              (with_train_batch_size 3000 default_FLAGS) Mock.empty_disk Hb)
    as (_ & _ & _ & H).
  exact (H Hin).
Defined.


(** The test double returns a model for ["rmsprop"], compiled with SGD. *)
Example create_model_rmsprop :
  compile_optimizers
    (trace (create_model Mock.env 5 [224; 224; 3] float_0_01 (Some "rmsprop") false
              (init Mock.empty_disk)).2) = [SGD float_0_01]
  /\ exists m,
       (create_model Mock.env 5 [224; 224; 3] float_0_01 (Some "rmsprop") false
          (init Mock.empty_disk)).1 = Return m.
Proof.
  split; [vm_compute; reflexivity|]. eexists. vm_compute. reflexivity.
Qed.

(** C4, at test_batch_size = -1 and validation_batch_size = 50 with a
    train_batch_size of 100: the three feeders of the run in the test
    double are created with a batch size of 100, and so is every feeder of
    every run with these flags, whatever the environment. *)
Theorem feeders_at_eval_batch_sizes :
  feeder_batch_sizes
    (trace (main Mock.env (with_eval_batch_sizes (-1) 50 default_FLAGS)
              (init Mock.empty_disk)).2)
  = [("train", 100); ("val", 100); ("test", 100)]
  /\ forall (W : Type) (env : Env W) (w : W),
       Forall (fun c : string * Z => c.2 = 100)
         (feeder_batch_sizes
            (trace (main env (with_eval_batch_sizes (-1) 50 default_FLAGS) (init w)).2)).
Proof.
  split.
  - vm_compute. reflexivity.
  - intros W env w.
    exact (proj1 (feeders_share_train_batch_size env
                    (with_eval_batch_sizes (-1) 50 default_FLAGS) w)).
Qed.

Lemma labels_file_holds_inverse_mapping_witness :
  NoDup (dict_keys (class_indices three_classes))
  /\ NoDup (dict_values (class_indices three_classes))
  /\ In (np_save_ev "/tmp/output_labels.txt" [(0, "A"); (1, "B"); (2, "C")] (Return tt))
        (trace (save_labels_to_file Mock.env three_classes "/tmp/output_labels.txt"
                  (init Mock.empty_disk)).2)
  /\ forall i l,
       dict_get [(0, "A"); (1, "B"); (2, "C")] i = Some l
       <-> dict_get (class_indices three_classes) l = Some i.
Proof.
  assert (Hk : NoDup (dict_keys (class_indices three_classes)))
    by (apply (bool_decide_unpack _); vm_compute; exact I).
  assert (Hv : NoDup (dict_values (class_indices three_classes)))
    by (apply (bool_decide_unpack _); vm_compute; exact I).
  assert (Hin : In (np_save_ev "/tmp/output_labels.txt" [(0, "A"); (1, "B"); (2, "C")]
                      (Return tt))
                   (trace (save_labels_to_file Mock.env three_classes
                             "/tmp/output_labels.txt" (init Mock.empty_disk)).2))
    by (vm_compute; right; right; left; reflexivity).
  split; [exact Hk|]. split; [exact Hv|]. split; [exact Hin|].
  destruct (labels_file_holds_inverse_mapping Mock.env three_classes
              "/tmp/output_labels.txt" Mock.empty_disk _ _ _ Hk Hv Hin) as (_ & H & _).
  exact H.
Defined.

Lemma head_units_and_image_count_are_constants_witness :
  (main Mock.env default_FLAGS (init Mock.empty_disk)).1 = Return tt
  /\ dense_units (trace (main Mock.env default_FLAGS (init Mock.empty_disk)).2) = [5]
  /\ (fit_calls (trace (main Mock.env default_FLAGS (init Mock.empty_disk)).2)).*1
     = [2055 / train_batch_size default_FLAGS].
Proof.
  assert (Hr : (main Mock.env default_FLAGS (init Mock.empty_disk)).1 = Return tt)
    by (vm_compute; reflexivity).
  split; [exact Hr|].
  destruct (head_units_and_image_count_are_constants Mock.env default_FLAGS Mock.empty_disk)
    as (_ & _ & H).
  exact (H Hr).
Defined.

Lemma evaluate_model_recompiles_with_momentum_witness :
  (evaluate_model Mock.env "checkpoints/1541240000" three_classes (init exported_disk)).1
  = Return tt
  /\ exists m loss accuracy,
       trace (evaluate_model Mock.env "checkpoints/1541240000" three_classes
                (init exported_disk)).2
       = [ load_keras_model_ev "checkpoints/1541240000" (Return m);
           compile_ev m "categorical_crossentropy"
             (MomentumOptimizer float_1e_3 float_0_9) ["accuracy"] (Return tt);
           evaluate_generator_ev m three_classes None (Return [loss; accuracy]);
           accuracy_log accuracy ].
Proof.
  assert (Hr : (evaluate_model Mock.env "checkpoints/1541240000" three_classes
                  (init exported_disk)).1 = Return tt) by (vm_compute; reflexivity).
  split; [exact Hr|].
  destruct (evaluate_model_recompiles_with_momentum Mock.env "checkpoints/1541240000"
              three_classes exported_disk) as (_ & _ & H).
  exact (H Hr).
Defined.

Lemma evaluation_happens_twice_witness :
  (main Mock.env default_FLAGS (init Mock.empty_disk)).1 = Return tt
  /\ length (List.filter is_evaluate
               (trace (main Mock.env default_FLAGS (init Mock.empty_disk)).2)) = 2%nat.
Proof.
  assert (Hr : (main Mock.env default_FLAGS (init Mock.empty_disk)).1 = Return tt)
    by (vm_compute; reflexivity).
  split; [exact Hr|].
  destruct (evaluation_happens_twice Mock.env default_FLAGS Mock.empty_disk Hr)
    as (a & _ & _ & H).
  exact H.
Defined.



(** On the disk of the counterexample, the file [model_dir] held before
    the run is still there after the copy, next to the export. *)
Example stale_file_stays :
  existsb (leaves_stale_file default_FLAGS)
    (history (main Mock.env default_FLAGS (init Mock.used_disk)).2) = true.
Proof. vm_compute. reflexivity. Qed.

(** On an empty disk the copy of the run goes to a fresh [model_dir]. *)
Example first_export_goes_to_a_fresh_dir :
  existsb copies_to_fresh_dir
    (history (main Mock.env default_FLAGS (init Mock.empty_disk)).2) = true.
Proof. vm_compute. reflexivity. Qed.

(** * Further properties of the script *)

(** ** The control flow of [main] *)

Section Flow.
Context {W : Type}.

Lemma last_raised_last (t : list event) : last t ≫= raised = last_raised t.
Proof.
  unfold last_raised. destruct t as [|e t] using rev_ind; [reflexivity|].
  rewrite last_snoc, fold_left_app. reflexivity.
Qed.

Lemma last_raised_app (t1 t2 : list event) (x : exn) :
  last_raised t2 = Some x -> last_raised (t1 ++ t2) = Some x.
Proof.
  unfold last_raised. destruct t2 as [|e t2] using rev_ind; [discriminate|].
  rewrite app_assoc, !fold_left_app. auto.
Qed.

Lemma flow_ret {A} (a : A) : flow (W := W) [] (ret a).
Proof.
  intros s. exists []. cbn. rewrite app_nil_r.
  repeat split; try reflexivity. exists []. reflexivity.
Qed.

Lemma flow_raise {A} (x : exn) : own_exception x -> flow (W := W) (A := A) [] (raise x).
Proof.
  intros Hx s. exists []. cbn. rewrite app_nil_r.
  repeat split; [exists []; reflexivity | left; auto].
Qed.

Lemma flow_bind {A B} (X1 X2 : list string) (m : M W A) (k : A -> M W B) :
  flow X1 m -> (forall a, flow X2 (k a)) -> flow (X1 ++ X2) (bind m k).
Proof.
  intros Hm Hk s. unfold bind.
  destruct (Hm s) as (T1 & H1 & (rest1 & P1) & O1).
  destruct (m s) as [[a|x] s1]; cbn [fst snd] in *.
  - destruct O1 as [K1 R1].
    destruct (Hk a s1) as (T2 & H2 & (rest2 & P2) & O2).
    exists (T1 ++ T2). rewrite H2, H1, app_assoc. split; [reflexivity|].
    rewrite List.map_app, List.filter_app, List.map_app, omap_app, K1, R1.
    split; [exists rest2; rewrite P2 at 1; rewrite app_assoc; reflexivity|].
    destruct (k a s1).1 as [b|x].
    + destruct O2 as [K2 R2]. rewrite K2, R2. auto.
    + destruct O2 as [[R2 Hx]|[R2 L2]]; [left|right]; rewrite R2; cbn; auto.
      split; [reflexivity | apply last_raised_app, L2].
  - exists T1. split; [exact H1|].
    split; [|exact O1]. exists (rest1 ++ X2). rewrite P1 at 1. rewrite app_assoc. reflexivity.
Qed.

Lemma flow_call {A} (c : string) (mk : result A -> event) (oracle : W -> result A * W) :
  (forall r, kind (mk r) = c) ->
  (forall r, not_trainable (mk r) = true) ->
  (forall a, raised (mk (Return a)) = None) ->
  (forall x, raised (mk (Raise x)) = Some x) ->
  flow [c] (call mk oracle).
Proof.
  intros Hk Hn Hr Hx s. unfold call.
  destruct (oracle (world s)) as [r w']. cbn [fst snd history].
  eexists [_]. split; [reflexivity|].
  cbn [map List.filter ev]. rewrite Hn. cbn [map omap list_omap]. rewrite Hk.
  split; [exists []; reflexivity|].
  destruct r as [a|x]; [rewrite Hr | rewrite Hx]; cbn; auto.
Qed.

Lemma flow_trainable (env : Env W) (l : Layer) (b : bool) : flow [] (set_trainable env l b).
Proof.
  intros s. unfold set_trainable, call.
  destruct (env_set_trainable W env l b (world s)) as [r w']. cbn [fst snd history].
  eexists [_]. split; [reflexivity|]. cbn.
  split; [exists []; reflexivity|].
  destruct r as [a|x]; cbn; auto.
Qed.

Lemma flow_logger_info (msg : string) (args : list fmt_arg) :
  flow (W := W) ["logger.info"] (logger_info msg args).
Proof.
  intros s. eexists [_]. cbn. split; [reflexivity|].
  split; [exists []; reflexivity | auto].
Qed.

Lemma flow_for_each {A} (l : list A) (body : A -> M W unit) :
  (forall x, flow [] (body x)) -> flow [] (for_each l body).
Proof.
  intros Hb. induction l as [|x l IH]; cbn.
  - apply flow_ret.
  - apply (flow_bind [] []); [apply Hb | intros _; exact IH].
Qed.

Lemma flow_floordiv (a b : Z) : flow (W := W) [] (floordiv a b).
Proof.
  unfold floordiv. destruct (b =? 0); [apply flow_raise; left; reflexivity | apply flow_ret].
Qed.

Lemma flow_index {A} (l : list A) (i : Z) : flow (W := W) [] (index l i).
Proof.
  unfold index. destruct (py_index l i);
    [apply flow_ret | apply flow_raise; right; left; reflexivity].
Qed.

Lemma flow_unpack2 {A} (l : list A) : flow (W := W) [] (unpack2 l).
Proof.
  unfold unpack2. destruct l as [|a [|b [|c l]]];
    first [apply flow_ret | apply flow_raise; right; right; reflexivity].
Qed.

Lemma flow_conv {A} (X Y : list string) (m : M W A) : flow X m -> X = Y -> flow Y m.
Proof. intros H <-. exact H. Qed.

End Flow.

Ltac flow_step :=
  lazymatch goal with
  | |- flow _ (bind _ _) => eapply flow_bind; [ | intros ? ]
  | |- flow _ (call _ _) => eapply flow_call; intros; cbn; reflexivity
  | |- flow _ (set_trainable _ _ _) => apply flow_trainable
  | |- flow _ (logger_info _ _) => apply flow_logger_info
  | |- flow _ (ret _) => apply flow_ret
  | |- flow _ (for_each _ _) => apply flow_for_each; intros ?
  | |- flow _ (floordiv _ _) => apply flow_floordiv
  | |- flow _ (index _ _) => apply flow_index
  | |- flow _ (unpack2 _) => apply flow_unpack2
  | |- flow _ (match ?x with pair _ _ => _ end) => destruct x
  end.

Ltac unfold_calls_but_trainable :=
  unfold os_makedirs, time_strftime, flow_from_directory, np_save, keras_Input, MobileNetV2,
    Dense, keras_Model, get_layer, summary, compile, save_keras_model,
    load_keras_model, evaluate_generator, fit_generator, copy_tree, clear_session.

Section FlowOfMain.
Context {W : Type} (env : Env W).

Lemma main_flow (FLAGS : Flags) : flow main_sequence (main env FLAGS).
Proof.
  eapply flow_conv.
  - unfold main, create_data_feeders, save_labels_to_file, create_model.
    rewrite contains_choice.
    unfold create_feature_extractor, add_classifier, evaluate_model.
    unfold_calls_but_trainable.
    repeat flow_step.
  - reflexivity.
Qed.

(** X1.  The calls of every run of [main], the assignments to [trainable]
    left out, are an initial part of the callee sequence of the source, in
    its order; a run that completes made them all. *)
Theorem main_calls_in_source_order (FLAGS : Flags) (w : W) :
  (exists rest,
     main_sequence
     = map kind (List.filter not_trainable (trace (main env FLAGS (init w)).2)) ++ rest)
  /\ ((main env FLAGS (init w)).1 = Return tt ->
      map kind (List.filter not_trainable (trace (main env FLAGS (init w)).2))
      = main_sequence).
Proof.
  destruct (main_flow FLAGS (init w)) as (T & H & P & O).
  unfold trace. rewrite H. cbn [history init app].
  split; [exact P|]. intros Hr. rewrite Hr in O. apply O.
Qed.

(** X2.  [main] handles no exception: in every run at most one call raised,
    it is the last call of the run and [main] raises its exception; when no
    call raised, [main] returns or raises [ZeroDivisionError], [IndexError]
    or [ValueError] itself, never [KeyError]. *)
Theorem main_stops_at_first_failure (FLAGS : Flags) (w : W) :
  match (main env FLAGS (init w)).1 with
  | Return _ => omap raised (trace (main env FLAGS (init w)).2) = []
  | Raise x =>
      (omap raised (trace (main env FLAGS (init w)).2) = [] /\ own_exception x)
      \/ (omap raised (trace (main env FLAGS (init w)).2) = [x] /\
          last (trace (main env FLAGS (init w)).2) ≫= raised = Some x)
  end.
Proof.
  destruct (main_flow FLAGS (init w)) as (T & H & P & O).
  unfold trace. rewrite H. cbn [history init app].
  destruct (main env FLAGS (init w)).1 as [u|x]; [apply O|].
  rewrite last_raised_last. exact O.
Qed.

Lemma only_last {A} (c : A) (X0 P rest : list A) :
  ~ In c X0 -> X0 ++ [c] = P ++ rest -> In c P -> rest = [].
Proof.
  revert P. induction X0 as [|a X0 IH]; intros P Hn E Hc.
  - destruct P as [|b P]; [destruct Hc|].
    cbn in E. injection E as _ E. destruct P; [symmetry; exact E | discriminate E].
  - destruct P as [|b P]; [destruct Hc|].
    cbn in E. injection E as <- E. destruct Hc as [<-|Hc].
    + exfalso. apply Hn. left. reflexivity.
    + apply (IH P); [intros H; apply Hn; right; exact H | exact E | exact Hc].
Qed.

(** X17.  The backend session is cleared only at the very end: a run in
    which [K.clear_session] is called has made every other call of [main]
    before it; a run that stops earlier leaves the session as it is. *)
Theorem session_is_cleared_only_at_the_end (FLAGS : Flags) (w : W) :
  existsb is_clear_session (trace (main env FLAGS (init w)).2) = true ->
  map kind (List.filter not_trainable (trace (main env FLAGS (init w)).2)) = main_sequence.
Proof.
  destruct (main_flow FLAGS (init w)) as (T & H & (rest & P) & _).
  unfold trace. rewrite H. cbn [history init app]. intros Hc.
  apply existsb_exists in Hc as (e & He & Hk).
  assert (Hin : In "clear_session" (map kind (List.filter not_trainable (map ev T)))).
  { destruct e; try discriminate Hk.
    apply in_map_iff. eexists. split; [|apply filter_In; split; [exact He|]]; reflexivity. }
  assert (Hr : rest = []).
  { apply (only_last "clear_session" (removelast main_sequence)
             (map kind (List.filter not_trainable (map ev T))) rest); [| |exact Hin].
    - cbn. intros Hx. repeat (destruct Hx as [Hx|Hx]; [discriminate Hx|]). exact Hx.
    - rewrite <- P. reflexivity. }
  rewrite Hr, app_nil_r in P. symmetry. exact P.
Qed.

End FlowOfMain.

(** ** The arithmetic of the training driver *)

Section Arithmetic.
Context {W : Type} (env : Env W).

(** X3.  For a positive batch size and a non-negative step count, the
    steps the training loop is asked for, [steps_per_epoch * epochs], never
    exceed [how_many_training_steps], and fall short of it by less than one
    epoch. *)
Theorem trained_steps_within_request (FLAGS : Flags) (w : W) :
  0 < train_batch_size FLAGS -> 0 <= how_many_training_steps FLAGS ->
  Forall (fun c : Z * Z =>
            0 <= c.1 * c.2 <= how_many_training_steps FLAGS /\
            how_many_training_steps FLAGS - c.1 * c.2 < c.1)
         (fit_calls (trace (main env FLAGS (init w)).2)).
Proof.
  intros Hb Hn. eapply Forall_impl.
  - apply (fit_calls_inv env FLAGS). eapply spec_run, main_inv.
  - intros [spe ep] (_ & H1 & H2 & H3). cbn [fst snd] in *.
    assert (Hspe : 0 < spe).
    { assert (0 <= spe) by (subst spe; apply Z.div_pos; lia). lia. }
    pose proof (Z.div_mod (how_many_training_steps FLAGS) spe H2) as Hdm.
    pose proof (Z.mod_pos_bound (how_many_training_steps FLAGS) spe Hspe) as Hm.
    assert (0 <= ep) by (subst ep; apply Z.div_pos; lia).
    rewrite <- H3 in Hdm. nia.
Qed.

(** X4.  When [how_many_training_steps] is smaller than one epoch
    ([2055 // train_batch_size] steps), the training loop is invoked with
    [epochs = 0]: the run goes on to export and evaluate a model that was
    never trained. *)
Theorem fewer_steps_than_an_epoch_train_nothing (FLAGS : Flags) (w : W) :
  0 <= how_many_training_steps FLAGS ->
  how_many_training_steps FLAGS < 2055 / train_batch_size FLAGS ->
  Forall (fun c : Z * Z => c.2 = 0) (fit_calls (trace (main env FLAGS (init w)).2))
  /\ ((main env FLAGS (init w)).1 = Return tt ->
      fit_calls (trace (main env FLAGS (init w)).2) = [(2055 / train_batch_size FLAGS, 0)]).
Proof.
  intros Hn Hlt.
  assert (Hz : how_many_training_steps FLAGS / (2055 / train_batch_size FLAGS) = 0)
    by (apply Z.div_small; lia).
  split.
  - eapply Forall_impl.
    + apply (fit_calls_inv env FLAGS). eapply spec_run, main_inv.
    + intros [spe ep] (_ & H1 & _ & H3). cbn [fst snd] in *. congruence.
  - intros Hr. rewrite (fit_calls_completed env FLAGS w Hr), Hz. reflexivity.
Qed.

Lemma after_log_bind_quiet {A B} (G : result B -> list (Z * Z) -> Prop)
    (m : M W A) (k : A -> M W B) :
  spec quiet m (fun _ => True) -> (forall a, after_log G (k a)) -> after_log G (bind m k).
Proof.
  intros Hm Hk s. unfold bind.
  destruct (Hm s) as (T1 & H1 & F1 & _).
  assert (Hq : existsb is_retraining_log (map ev T1) = false /\ fit_calls (map ev T1) = []).
  { clear H1. induction F1 as [|st T1 [Hl Hf] _ [IH1 IH2]]; [split; reflexivity|].
    cbn. rewrite Hl, IH1. unfold fit_calls in *. cbn in *.
    rewrite app_nil_r in Hf. rewrite Hf, IH2. split; reflexivity. }
  destruct Hq as [Hl Hf].
  destruct (m s) as [[a|x] s1]; cbn [fst snd] in *.
  - destruct (Hk a s1) as (T2 & H2 & HG).
    exists (T1 ++ T2). rewrite H2, H1, app_assoc. split; [reflexivity|].
    rewrite List.map_app, existsb_app, Hl. unfold fit_calls in *.
    rewrite flat_map_app, Hf. exact HG.
  - exists T1. split; [exact H1|]. rewrite Hl. discriminate.
Qed.

Lemma after_log_here {B} (G : result B -> list (Z * Z) -> Prop) (msg : string)
    (args : list fmt_arg) (k : unit -> M W B) :
  (forall s, exists T,
      history (k tt s).2 = history s ++ T /\ G (k tt s).1 (fit_calls (map ev T))) ->
  after_log G (bind (logger_info msg args) k).
Proof.
  intros Hk s. unfold bind, logger_info.
  match goal with |- context [k tt ?s'] => destruct (Hk s') as (T & H & HG) end.
  eexists (_ :: T). rewrite H. cbn [history]. rewrite <- app_assoc.
  split; [reflexivity|]. intros _. exact HG.
Qed.

Ltac quiet_step tac :=
  lazymatch goal with
  | |- spec _ (logger_info _ _) _ => apply spec_logger_info; [intros; tac | exact I]
  | |- spec _ (call _ _) _ => apply spec_call; [intros ? ? ? ?; tac | auto]
  | _ => spec_step
  end.

Lemma bind_floordiv_zero {B} (a b : Z) (k : Z -> M W B) (s : state W) :
  b = 0 -> bind (floordiv a b) k s = (Raise ZeroDivisionError, s).
Proof. intros ->. reflexivity. Qed.

Lemma bind_floordiv_nonzero {B} (a b : Z) (k : Z -> M W B) (s : state W) :
  b <> 0 -> bind (floordiv a b) k s = k (a / b) s.
Proof. intros H. unfold bind, floordiv. apply Z.eqb_neq in H. rewrite H. reflexivity. Qed.

Lemma no_fit_trace (T : list (step W)) : Forall no_fit T -> fit_calls (map ev T) = [].
Proof.
  induction 1 as [|st T Hst _ IH]; [reflexivity|].
  unfold fit_calls, no_fit in *. cbn in *. rewrite app_nil_r in Hst.
  rewrite Hst, IH. reflexivity.
Qed.

(** One call to the training loop, then a rest that makes none. *)
Lemma fit_then_rest {A B} (G : result B -> list (Z * Z) -> Prop)
    (mk : result A -> event) (oracle : W -> result A * W) (k : A -> M W B) (c : Z * Z) :
  (forall r, fit_calls [mk r] = [c]) ->
  (forall a, spec no_fit (k a) (fun _ => True)) ->
  (forall r, G r [c]) ->
  forall s, exists T,
    history (bind (call mk oracle) k s).2 = history s ++ T /\
    G (bind (call mk oracle) k s).1 (fit_calls (map ev T)).
Proof.
  intros Hc Hk HG s. unfold bind, call.
  destruct (oracle (world s)) as [[a|x] w1].
  - match goal with |- context [k a ?s1] => destruct (Hk a s1) as (T & HT & F & _) end.
    eexists (_ :: T). rewrite HT. cbn [history]. rewrite <- app_assoc.
    split; [reflexivity|].
    change (map ev (?st :: T)) with ([ev st] ++ map ev T).
    unfold fit_calls in *. rewrite flat_map_app.
    fold (fit_calls (map ev T)). rewrite (no_fit_trace T F), app_nil_r.
    cbn [ev]. rewrite Hc. apply HG.
  - eexists [_]. cbn [fst snd history]. split; [reflexivity|].
    cbn [map ev]. unfold fit_calls in Hc. rewrite Hc. apply HG.
Qed.

Lemma main_after_log (FLAGS : Flags) : after_log (divisions_outcome FLAGS) (main env FLAGS).
Proof.
  unfold main, create_data_feeders, save_labels_to_file, create_model.
  rewrite contains_choice.
  unfold create_feature_extractor, add_classifier, evaluate_model, unpack2.
  repeat (apply after_log_bind_quiet;
          [ unfold_calls; repeat quiet_step ltac:(split; reflexivity); exact I
          | intros ? ];
          try match goal with
              | |- after_log _ (match ?x with pair _ _ => _ end) => destruct x as [[? ?] ?]
              end).
  apply after_log_here. intros s.
  destruct (Z.eq_dec (train_batch_size FLAGS) 0) as [Hb|Hb].
  { rewrite bind_floordiv_zero by exact Hb.
    exists []. cbn [fst snd]. rewrite app_nil_r. split; [reflexivity|].
    split; [auto | contradiction]. }
  rewrite bind_floordiv_nonzero by exact Hb.
  destruct (Z.eq_dec (2055 / train_batch_size FLAGS) 0) as [Hs|Hs].
  { rewrite bind_floordiv_zero by exact Hs.
    exists []. cbn [fst snd]. rewrite app_nil_r. split; [reflexivity|].
    split; [contradiction|]. intros _ Hle.
    apply Z.div_small_iff in Hs; [lia | exact Hb]. }
  rewrite bind_floordiv_nonzero by exact Hs.
  unfold fit_generator.
  apply fit_then_rest with
    (c := (2055 / train_batch_size FLAGS,
           how_many_training_steps FLAGS / (2055 / train_batch_size FLAGS))).
  - intros r. reflexivity.
  - intros []. unfold_calls. repeat quiet_step ltac:(reflexivity); exact I.
  - intros r. split; [contradiction | reflexivity].
Qed.

(** X5.  Once [main] has logged the start of the training, its two
    divisions decide: with [train_batch_size = 0] the first one raises
    [ZeroDivisionError] and the training loop is not invoked; with a
    non-zero [train_batch_size] up to 2055, a negative one included,
    neither division raises and the training loop is invoked exactly once,
    with [2055 // train_batch_size] steps per epoch. *)
Theorem divisions_decide_the_training (FLAGS : Flags) (w : W) :
  In retraining_log (trace (main env FLAGS (init w)).2) ->
  (train_batch_size FLAGS = 0 ->
   (main env FLAGS (init w)).1 = Raise ZeroDivisionError /\
   fit_calls (trace (main env FLAGS (init w)).2) = [])
  /\ (train_batch_size FLAGS <> 0 -> train_batch_size FLAGS <= 2055 ->
      fit_calls (trace (main env FLAGS (init w)).2)
      = [(2055 / train_batch_size FLAGS,
          how_many_training_steps FLAGS / (2055 / train_batch_size FLAGS))]).
Proof.
  intros Hin.
  destruct (main_after_log FLAGS (init w)) as (T & H & HG).
  unfold trace in *. rewrite H in *. cbn [history init app] in *.
  apply HG. apply existsb_exists. exists retraining_log. split; [exact Hin | reflexivity].
Qed.

End Arithmetic.

(** ** What [main] asks for, whatever the flags that are not read *)

Section Requests.
Context {W : Type} (env : Env W).

(** X6.  The [architecture] flag is never read: whatever its value, [main]
    is the same computation, and every run asks for MobileNetV2 with the
    ImageNet weights, no top and average pooling, on an input of
    [image_size] x [image_size] x 3, the size the three feeders resize
    to. *)
Theorem architecture_flag_is_never_read (FLAGS : Flags) (a : string) (w : W) :
  main env (with_architecture a FLAGS) = main env FLAGS
  /\ Forall (backbone_inv FLAGS) (history (main env FLAGS (init w)).2).
Proof.
  split; [reflexivity|].
  apply spec_run with (R := fun _ => True).
  unfold main, create_data_feeders, save_labels_to_file, create_model.
  rewrite contains_choice.
  unfold create_feature_extractor, add_classifier, evaluate_model, unpack2.
  unfold_calls.
  repeat spec_step; try exact I; try (unfold backbone_inv; cbn; auto; fail).
Qed.

End Requests.

(** ** Paths *)

Section Strings.

Lemma list_ascii_of_string_app (a b : string) :
  list_ascii_of_string (a +:+ b) = list_ascii_of_string a ++ list_ascii_of_string b.
Proof.
  induction a as [|c a IH]; [reflexivity|].
  change (String c a +:+ b) with (String c (a +:+ b)).
  cbn [list_ascii_of_string app]. rewrite IH. reflexivity.
Qed.

Lemma string_app_assoc (a b c : string) : (a +:+ b) +:+ c = a +:+ b +:+ c.
Proof.
  induction a as [|x a IH]; [reflexivity|].
  change ((String x a +:+ b) +:+ c) with (String x ((a +:+ b) +:+ c)).
  rewrite IH. reflexivity.
Qed.

Lemma substring_last (c : ascii) (s : string) :
  String.substring (String.length s) 1 (String c s)
  = match s with
    | EmptyString => String c EmptyString
    | String c' s' => String.substring (String.length s') 1 s
    end.
Proof. destruct s; reflexivity. Qed.

(** [s.endswith("/")] looks at the last character. *)
Lemma endswith_slash_last (s : string) :
  os_path.endswith "/" s
  = match rev (list_ascii_of_string s) with
    | c :: _ => Ascii.eqb c "/"
    | [] => false
    end.
Proof.
  unfold os_path.endswith. induction s as [|c s IH]; [reflexivity|].
  cbn [String.length Nat.leb Nat.sub andb]. rewrite Nat.sub_0_r, substring_last.
  destruct s as [|c' s'].
  - cbn. destruct (Ascii.eqb c "/"); reflexivity.
  - cbn [String.length Nat.leb Nat.sub andb] in IH. rewrite Nat.sub_0_r in IH.
    rewrite IH. cbn [list_ascii_of_string rev].
    destruct (rev (list_ascii_of_string s') ++ [c']) as [|x r] eqn:E.
    + destruct (rev (list_ascii_of_string s')); discriminate E.
    + reflexivity.
Qed.

Lemma rev_head_no_slash (x r : list ascii) :
  forallb (fun c => negb (Ascii.eqb c "/")) x = true ->
  os_path.rev_head (x ++ "/"%char :: r) = "/"%char :: r.
Proof.
  induction x as [|c x IH]; cbn; [reflexivity|].
  intros H. apply andb_prop in H as [Hc Hx].
  destruct (Ascii.eqb c "/"); [discriminate Hc | exact (IH Hx)].
Qed.

Lemma rev_head_none (x : list ascii) :
  forallb (fun c => negb (Ascii.eqb c "/")) x = true -> os_path.rev_head x = [].
Proof.
  induction x as [|c x IH]; cbn; [reflexivity|].
  intros H. apply andb_prop in H as [Hc Hx].
  destruct (Ascii.eqb c "/"); [discriminate Hc | exact (IH Hx)].
Qed.

Lemma forallb_rev {A} (f : A -> bool) (l : list A) :
  forallb f l = true -> forallb f (rev l) = true.
Proof.
  rewrite !forallb_forall. intros H x Hx. apply H, in_rev, Hx.
Qed.

Lemma startswith_no_slash (b : string) : no_slash b = true -> os_path.startswith "/" b = false.
Proof.
  destruct b as [|c b]; [reflexivity|]. unfold no_slash, os_path.startswith.
  change (list_ascii_of_string (String c b)) with (c :: list_ascii_of_string b).
  cbn [forallb]. intros H. apply andb_prop in H as [Hc _].
  change (String.prefix "/" (String c b))
    with (if Ascii.ascii_dec "/" c then String.prefix "" b else false).
  destruct (Ascii.ascii_dec "/" c) as [<-|_]; [discriminate Hc | reflexivity].
Qed.

(** [os.path.dirname] of a path with no slash is the empty string. *)
Lemma dirname_no_slash (f : string) : no_slash f = true -> os_path.dirname f = "".
Proof.
  intros H. unfold os_path.dirname.
  rewrite rev_head_none by (apply forallb_rev, H). reflexivity.
Qed.

(** [os.path.dirname(p + "/" + b)] is [p], for a [b] with no slash and a
    non-empty [p] that does not end in a slash. *)
Lemma dirname_slash (p b : string) :
  p <> "" -> os_path.endswith "/" p = false -> no_slash b = true ->
  os_path.dirname (p +:+ "/" +:+ b) = p.
Proof.
  intros Hp He Hb. unfold os_path.dirname.
  rewrite !list_ascii_of_string_app, rev_app_distr.
  change (list_ascii_of_string "/") with ["/"%char].
  cbn [app]. cbn [rev]. rewrite <- app_assoc. cbn [app].
  rewrite rev_head_no_slash by (apply forallb_rev, Hb).
  rewrite endswith_slash_last in He. cbn [os_path.rev_rstrip].
  change (Ascii.eqb "/" "/") with true. cbn iota.
  destruct (rev (list_ascii_of_string p)) as [|c r] eqn:E.
  - exfalso. apply Hp. rewrite <- (string_of_list_ascii_of_string p).
    apply (f_equal (@rev ascii)) in E. rewrite rev_involutive in E. rewrite E. reflexivity.
  - cbn [os_path.rev_rstrip]. rewrite He. cbn iota.
    change (rev r ++ [c]) with (rev (c :: r)). rewrite <- E, rev_involutive.
    apply string_of_list_ascii_of_string.
Qed.

Lemma join_plain (p b : string) :
  p <> "" -> os_path.endswith "/" p = false -> no_slash b = true ->
  os_path.join p b = p +:+ "/" +:+ b.
Proof.
  intros Hp He Hb. unfold os_path.join.
  rewrite (startswith_no_slash b Hb), He.
  apply String.eqb_neq in Hp. rewrite Hp. reflexivity.
Qed.

(** [os.path.join(a, "checkpoints")] is not empty and does not end in a
    slash. *)
Lemma join_checkpoints (a : string) :
  os_path.join a "checkpoints" <> "" /\
  os_path.endswith "/" (os_path.join a "checkpoints") = false.
Proof.
  assert (H : forall x : string,
             x +:+ "checkpoints" <> "" /\ os_path.endswith "/" (x +:+ "checkpoints") = false).
  { intros x. split.
    - destruct x; discriminate.
    - rewrite endswith_slash_last, list_ascii_of_string_app, rev_app_distr. reflexivity. }
  unfold os_path.join. cbn [os_path.startswith String.prefix].
  change (os_path.startswith "/" "checkpoints") with false. cbn iota.
  destruct (String.eqb a "" || os_path.endswith "/" a); [apply H|].
  rewrite <- string_app_assoc. apply H.
Qed.

End Strings.

Section Paths.
Context {W : Type} (env : Env W).

(** X7.  Every run of [main] starts by creating the checkpoint directory,
    with [exist_ok=True], and then asks the clock once; from there on the
    one directory it creates, again with [exist_ok=True], is that of the
    labels file, both exports go to the checkpoint directory, and the
    training loop gets a checkpoint callback for [checkpoint.pb] and a
    TensorBoard callback for the directory named by the timestamp the clock
    answered, directly under [summaries_dir]; a run that returns has made
    that call of the training loop; and the directory of the checkpoint
    file is the checkpoint directory, the one [main] created. *)
Theorem checkpoints_are_written_where_main_made_room (FLAGS : Flags) (w : W) :
  paths_of_run FLAGS (trace (main env FLAGS (init w)).2)
  /\ ((main env FLAGS (init w)).1 = Return tt ->
      exists timestamp m g spe ep vd vs,
        In (time_strftime_ev "%Y%m%d-%H%M%S" (Return timestamp))
           (trace (main env FLAGS (init w)).2)
        /\ In (fit_generator_ev m g spe ep vd vs
                 [ ModelCheckpoint (os_path.join (checkpoint_dir FLAGS) "checkpoint.pb") 1;
                   TensorBoard (os_path.join (summaries_dir FLAGS) timestamp) true true 0 ]
                 (Return tt))
              (trace (main env FLAGS (init w)).2))
  /\ os_path.dirname (os_path.join (checkpoint_dir FLAGS) "checkpoint.pb")
     = checkpoint_dir FLAGS.
Proof.
  split; [|split].
  - unfold paths_of_run, trace, main. cbv zeta.
    unfold os_makedirs. rewrite bind_call_eq. cbn [world init].
    destruct (env_makedirs W env _ true w) as [[[]|x] w1].
    2:{ eexists _, _. split; reflexivity. }
    unfold time_strftime. rewrite bind_call_eq. cbn [world].
    destruct (env_strftime W env _ w1) as [[timestamp|x] w2].
    2:{ eexists _, _. split; [reflexivity|]. eexists _, _. split; reflexivity. }
    match goal with
    | |- context [bind ?m0 ?k0 ?s1] =>
        assert (Hs : spec (fun st => paths_after FLAGS timestamp (ev st)) (bind m0 k0)
                       (fun _ => True));
        [ | destruct (Hs s1) as (T & HT & F & _) ]
    end.
    { unfold create_data_feeders, save_labels_to_file, create_model.
      rewrite contains_choice.
      unfold create_feature_extractor, add_classifier, evaluate_model, unpack2.
      unfold_calls.
      repeat spec_step; try exact I;
        try (unfold paths_after, checkpoint_dir, create_callbacks; cbn [ev]; auto; fail). }
    rewrite HT. cbn [history init app map ev].
    eexists _, _. split; [reflexivity|]. eexists _, _. split; [reflexivity|].
    apply List.Forall_map. exact F.
  - intros Hr. destruct (proj1 (main_outcome env FLAGS w) Hr) as (a & Ha).
    assert (Hin : forall e, In e (completed FLAGS a) -> In e (trace (main env FLAGS (init w)).2)).
    { intros e He. rewrite <- Ha in He. apply filter_In in He. apply He. }
    exists (timestamp a), (model a), (train_gen a), (2055 / train_batch_size FLAGS),
      (how_many_training_steps FLAGS / (2055 / train_batch_size FLAGS)), (val_gen a), 5.
    split; apply Hin.
    + right; left; reflexivity.
    + do 15 right; left; reflexivity.
  - destruct (join_checkpoints (os_path.dirname (model_dir FLAGS))) as [Hn He].
    fold (checkpoint_dir FLAGS) in Hn, He.
    rewrite join_plain by (assumption || reflexivity).
    apply dirname_slash; assumption || reflexivity.
Qed.

(** X8.  Where the checkpoint directory is: for a [model_dir] of the form
    [p/b], with [b] free of slashes, it is [p/checkpoints], a sibling of
    [model_dir]; [b] may be empty, so for a [model_dir] written with a
    trailing slash the checkpoint directory is inside [model_dir]; for a
    [model_dir] without any slash it is [checkpoints], relative to the
    working directory. *)
Theorem checkpoint_dir_location (FLAGS : Flags) :
  (no_slash (model_dir FLAGS) = true -> checkpoint_dir FLAGS = "checkpoints")
  /\ (forall p b : string,
        p <> "" -> os_path.endswith "/" p = false -> no_slash b = true ->
        model_dir FLAGS = p +:+ "/" +:+ b ->
        checkpoint_dir FLAGS = p +:+ "/checkpoints").
Proof.
  unfold checkpoint_dir. split.
  - intros H. rewrite (dirname_no_slash _ H). reflexivity.
  - intros p b Hp He Hb ->. rewrite (dirname_slash p b Hp He Hb).
    rewrite join_plain by (assumption || reflexivity). reflexivity.
Qed.

End Paths.

(** ** The functions [main] calls *)

Section Functions.
Context {W : Type} (env : Env W).

(** X9.  [save_labels_to_file] first asks [os.makedirs] for the directory
    of the labels file, with [exist_ok=True]; when that call raises, the
    function raises the same exception and nothing is logged or written;
    otherwise it logs and calls [np.save] on the labels file with the
    inverted dict, and its outcome is that of [np.save]. *)
Theorem save_labels_to_file_outcomes (train_gen : DirectoryIterator) (labels_file : string)
    (w : W) :
  exists r rest,
    trace (save_labels_to_file env train_gen labels_file (init w)).2
    = os_makedirs_ev (os_path.dirname labels_file) true r :: rest
    /\ match r with
       | Raise x =>
           (save_labels_to_file env train_gen labels_file (init w)).1 = Raise x /\
           rest = []
       | Return _ =>
           rest = [ logger_info_ev "Saving trained classes to {}" [FStr labels_file];
                    np_save_ev labels_file (invert (class_indices train_gen))
                      (save_labels_to_file env train_gen labels_file (init w)).1 ]
       end.
Proof.
  run; eexists _, _; (split; [reflexivity|]); cbn; auto.
Qed.

(** X10.  A labels file given by a bare file name, without a directory,
    makes [save_labels_to_file] ask [os.makedirs] to create the empty
    path. *)
Theorem bare_labels_file_creates_empty_path (train_gen : DirectoryIterator)
    (labels_file : string) (w : W) :
  no_slash labels_file = true ->
  exists r rest,
    trace (save_labels_to_file env train_gen labels_file (init w)).2
    = os_makedirs_ev "" true r :: rest.
Proof.
  intros H. rewrite <- (dirname_no_slash labels_file H).
  run; eexists _, _; reflexivity.
Qed.

(** X11.  [evaluate_model] logs an accuracy exactly when it returns; when
    [evaluate_generator] returns anything but two scores (a model compiled
    without metrics yields the loss alone), the unpacking raises
    [ValueError] and no accuracy is logged. *)
Theorem evaluate_model_needs_two_scores (path : string) (image_gen : DirectoryIterator)
    (w : W) :
  ((evaluate_model env path image_gen (init w)).1 = Return tt <->
   existsb is_accuracy_log (trace (evaluate_model env path image_gen (init w)).2) = true)
  /\ (forall m g steps scores,
        In (evaluate_generator_ev m g steps (Return scores))
           (trace (evaluate_model env path image_gen (init w)).2) ->
        length scores <> 2%nat ->
        (evaluate_model env path image_gen (init w)).1 = Raise ValueError).
Proof.
  run.
  all: split; [split; [intros Hr; try discriminate Hr; reflexivity
                      | intros Hl; try discriminate Hl; reflexivity] |].
  all: intros m g steps scores Hin Hlen.
  all: repeat (destruct Hin as [Hin|Hin]; [try discriminate Hin|]); try contradiction.
  all: try reflexivity.
  all: injection Hin as <- <- <- <-; cbn in Hlen; congruence.
Qed.

(** X12.  [add_classifier] reads the last two layers of the model the
    framework assembled: for a model with fewer than two layers it raises
    [IndexError], after the head was created and wired in and before the
    head is looked up and made trainable. *)
Theorem add_classifier_needs_two_layers (base_model : KModel) (num_labels : Z) (w : W)
    (inputs outputs : Tensor) (m : KModel) :
  In (keras_Model_ev inputs outputs (Return m))
     (trace (add_classifier env base_model num_labels (init w)).2) ->
  (length (model_layers m) < 2)%nat ->
  (add_classifier env base_model num_labels (init w)).1 = Raise IndexError
  /\ List.filter head_call (trace (add_classifier env base_model num_labels (init w)).2)
     = [ Dense_ev num_labels "softmax" ("predictions_" +:+ pretty num_labels)
           (model_output base_model) (Return outputs);
         keras_Model_ev (model_input base_model) outputs (Return m) ].
Proof.
  run.
  all: intros Hin Hlen.
  all: repeat (destruct Hin as [Hin|Hin]; [try discriminate Hin|]); try contradiction.
  all: injection Hin as ? ? ?; subst.
  all: first [ split; reflexivity | exfalso; index_ranges; lia ].
Qed.

(** X13.  A call of [create_model] that returns has assigned
    [fully_trainable] to every layer of the feature extractor, in order, and
    then [True] to the layer it looked up under the name of the head,
    [predictions_<num_labels>], in the model it returns; that model has at
    least two layers. *)
Theorem create_model_freezes_then_unfreezes_head (num_labels : Z) (input_shape : list Z)
    (lr : float) (optimizer : option string) (fully_trainable : bool) (w : W) (m : KModel) :
  (create_model env num_labels input_shape lr optimizer fully_trainable (init w)).1
  = Return m ->
  exists input_tensor base_model classifier,
    In (MobileNetV2_ev "imagenet" false input_shape input_tensor "avg" (Return base_model))
       (trace (create_model env num_labels input_shape lr optimizer fully_trainable
                 (init w)).2)
    /\ In (get_layer_ev m ("predictions_" +:+ pretty num_labels) (Return classifier))
          (trace (create_model env num_labels input_shape lr optimizer fully_trainable
                    (init w)).2)
    /\ assignments
         (trace (create_model env num_labels input_shape lr optimizer fully_trainable
                   (init w)).2)
       = map (fun l => (l, fully_trainable)) (model_layers base_model) ++ [(classifier, true)]
    /\ (2 <= length (model_layers m))%nat.
Proof.
  run_exact; intros Hr; try discriminate Hr; injection Hr as <-.
  all: rewrite List.map_app; cbn [map ev].
  all: eexists _, _, _.
  all: split; [right; right; left; reflexivity|].
  all: split; [do 3 right; apply in_or_app; right; cbn; intuition eauto; fail |].
  all: change (?a :: ?b :: ?c :: map ev ?T ++ ?r)
         with ([a; b; c] ++ map ev T ++ r).
  all: destruct HA as [HA _].
  all: rewrite !assignments_app, HA.
  all: split; [reflexivity|].
  all: index_ranges; lia.
Qed.

(** X14.  Any run of [create_data_feeders] asks for augmentation from the
    first generator it calls only; a run that returns made exactly three
    calls, on the train, the validation and the test directory in this
    order, all with the one batch size and the square target size, and
    returns the three feeders in the order of the calls. *)
Theorem create_data_feeders_augments_training_only (train_dir val_dir test_dir : string)
    (batch_size image_size : Z) (w : W) :
  Forall (fun g => augments g = false)
    (tail (datagens
             (trace (create_data_feeders env train_dir val_dir test_dir batch_size image_size
                       (init w)).2)))
  /\ (forall feeders,
        (create_data_feeders env train_dir val_dir test_dir batch_size image_size
           (init w)).1 = Return feeders ->
        trace (create_data_feeders env train_dir val_dir test_dir batch_size image_size
                 (init w)).2
        = [ flow_from_directory_ev train_datagen train_dir (image_size, image_size)
              batch_size "categorical" (Return feeders.1.1);
            flow_from_directory_ev plain_datagen val_dir (image_size, image_size)
              batch_size "categorical" (Return feeders.1.2);
            flow_from_directory_ev plain_datagen test_dir (image_size, image_size)
              batch_size "categorical" (Return feeders.2) ]
        /\ augments train_datagen = true).
Proof.
  run.
  all: split; [cbn; repeat constructor|].
  all: intros feeders Hr; try discriminate Hr.
  injection Hr as <-. split; reflexivity.
Qed.

End Functions.

(** ** The dict comprehension of [save_labels_to_file] *)

Section Invert.

Lemma dict_set_keys (acc : pydict Z string) (i : Z) (l : string) :
  (In i (dict_keys acc) -> dict_keys (dict_set acc i l) = dict_keys acc)
  /\ (~ In i (dict_keys acc) -> dict_keys (dict_set acc i l) = dict_keys acc ++ [i]).
Proof.
  unfold dict_keys. induction acc as [|[k v] acc [IH1 IH2]]; cbn.
  - split; [intros [] | reflexivity].
  - destruct (decide (i = k)) as [->|Hne]; cbn.
    + split; [reflexivity | intros H; exfalso; apply H; left; reflexivity].
    + split.
      * intros [E|H]; [congruence|]. rewrite (IH1 H). reflexivity.
      * intros H. rewrite IH2; [reflexivity|]. intros Hi. apply H. right. exact Hi.
Qed.

Lemma invert_keys (items : pydict string Z) (acc : pydict Z string) :
  NoDup (dict_keys acc) ->
  NoDup (dict_keys (fold_left invert_step items acc))
  /\ forall i, In i (dict_keys (fold_left invert_step items acc))
               <-> In i (dict_keys acc) \/ In i (dict_values items).
Proof.
  revert acc. induction items as [|[l j] items IH]; intros acc Hnd; cbn [fold_left].
  - split; [exact Hnd|]. intros i. unfold dict_values. cbn. tauto.
  - cbn [invert_step].
    destruct (dict_set_keys acc j l) as [Hin Hout].
    destruct (in_dec Z.eq_dec j (dict_keys acc)) as [Hj|Hj].
    + destruct (IH (dict_set acc j l)) as [N E]; [rewrite (Hin Hj); exact Hnd|].
      split; [exact N|]. intros i. rewrite E, (Hin Hj). unfold dict_values. cbn.
      split; [tauto|]. intros [H|[<-|H]]; tauto.
    + destruct (IH (dict_set acc j l)) as [N E].
      { rewrite (Hout Hj). apply NoDup_app.
        split; [exact Hnd|]. split.
        - intros x Hx Hx'. apply list_elem_of_In in Hx. apply list_elem_of_In in Hx'.
          destruct Hx' as [<-|[]]. exact (Hj Hx).
        - apply NoDup_singleton. }
      split; [exact N|]. intros i. rewrite E, (Hout Hj), in_app_iff.
      unfold dict_values. cbn. tauto.
Qed.

(** X15.  The dict [save_labels_to_file] writes is well formed whatever
    the feeder reports: its keys are distinct and are exactly the indices
    the feeder assigns. *)
Theorem inverted_labels_are_keyed_by_the_indices (trained_classes : pydict string Z) :
  NoDup (dict_keys (invert trained_classes))
  /\ forall i, In i (dict_keys (invert trained_classes)) <-> In i (dict_values trained_classes).
Proof.
  destruct (invert_keys (dict_items trained_classes) []) as [N E]; [constructor|].
  split; [exact N|]. intros i. unfold invert. rewrite E. cbn. tauto.
Qed.

(** X16.  When the feeder assigns one index to several labels, the dict
    written keeps the label that comes last. *)
Theorem inverted_labels_keep_the_last_label (d1 d2 : pydict string Z) (l : string) (i : Z) :
  ~ In i (dict_values d2) ->
  dict_get (invert (d1 ++ (l, i) :: d2)) i = Some l.
Proof.
  intros H. unfold invert, dict_items. rewrite fold_left_app. cbn [fold_left invert_step].
  rewrite invert_keeps by exact H. apply dict_get_set_eq.
Qed.

End Invert.

(** ** Runs in the test double *)

Lemma main_calls_in_source_order_witness :
  (main Mock.env default_FLAGS (init Mock.empty_disk)).1 = Return tt
  /\ map kind (List.filter not_trainable
                 (trace (main Mock.env default_FLAGS (init Mock.empty_disk)).2))
     = main_sequence.
Proof.
  assert (Hr : (main Mock.env default_FLAGS (init Mock.empty_disk)).1 = Return tt)
    by (vm_compute; reflexivity).
  split; [exact Hr|].
  destruct (main_calls_in_source_order Mock.env default_FLAGS Mock.empty_disk) as [_ H].
  exact (H Hr).
Defined.

Lemma session_is_cleared_only_at_the_end_witness :
  existsb is_clear_session (trace (main Mock.env default_FLAGS (init Mock.empty_disk)).2)
  = true
  /\ map kind (List.filter not_trainable
                 (trace (main Mock.env default_FLAGS (init Mock.empty_disk)).2))
     = main_sequence.
Proof.
  assert (Hc : existsb is_clear_session
                 (trace (main Mock.env default_FLAGS (init Mock.empty_disk)).2) = true)
    by (vm_compute; reflexivity).
  split; [exact Hc|].
  exact (session_is_cleared_only_at_the_end Mock.env default_FLAGS Mock.empty_disk Hc).
Defined.

Lemma trained_steps_within_request_witness :
  0 < train_batch_size (with_training_steps 250 default_FLAGS)
  /\ 0 <= how_many_training_steps (with_training_steps 250 default_FLAGS)
  /\ Forall (fun c : Z * Z =>
               0 <= c.1 * c.2 <= 250 /\ 250 - c.1 * c.2 < c.1)
       (fit_calls (trace (main Mock.env (with_training_steps 250 default_FLAGS)
                            (init Mock.empty_disk)).2)).
Proof.
  assert (Hb : 0 < train_batch_size (with_training_steps 250 default_FLAGS))
    by reflexivity.
  assert (Hn : 0 <= how_many_training_steps (with_training_steps 250 default_FLAGS))
    by discriminate.
  split; [exact Hb|]. split; [exact Hn|].
  exact (trained_steps_within_request Mock.env (with_training_steps 250 default_FLAGS)
           Mock.empty_disk Hb Hn).
Defined.

Lemma fewer_steps_than_an_epoch_train_nothing_witness :
  0 <= how_many_training_steps (with_training_steps 10 default_FLAGS)
  /\ how_many_training_steps (with_training_steps 10 default_FLAGS)
     < 2055 / train_batch_size (with_training_steps 10 default_FLAGS)
  /\ (main Mock.env (with_training_steps 10 default_FLAGS) (init Mock.empty_disk)).1
     = Return tt
  /\ fit_calls (trace (main Mock.env (with_training_steps 10 default_FLAGS)
                         (init Mock.empty_disk)).2)
     = [(2055 / train_batch_size (with_training_steps 10 default_FLAGS), 0)].
Proof.
  assert (Hn : 0 <= how_many_training_steps (with_training_steps 10 default_FLAGS))
    by discriminate.
  assert (Hlt : how_many_training_steps (with_training_steps 10 default_FLAGS)
                < 2055 / train_batch_size (with_training_steps 10 default_FLAGS))
    by reflexivity.
  assert (Hr : (main Mock.env (with_training_steps 10 default_FLAGS)
                  (init Mock.empty_disk)).1 = Return tt) by (vm_compute; reflexivity).
  split; [exact Hn|]. split; [exact Hlt|]. split; [exact Hr|].
  destruct (fewer_steps_than_an_epoch_train_nothing Mock.env
              (with_training_steps 10 default_FLAGS) Mock.empty_disk Hn Hlt) as [_ H].
  exact (H Hr).
Defined.

Lemma divisions_decide_the_training_witness :
  In retraining_log
     (trace (main Mock.env (with_train_batch_size 0 default_FLAGS) (init Mock.empty_disk)).2)
  /\ train_batch_size (with_train_batch_size 0 default_FLAGS) = 0
  /\ (main Mock.env (with_train_batch_size 0 default_FLAGS) (init Mock.empty_disk)).1
     = Raise ZeroDivisionError
  /\ fit_calls
       (trace (main Mock.env (with_train_batch_size 0 default_FLAGS)
                 (init Mock.empty_disk)).2) = [].
Proof.
  assert (Hin : In retraining_log
                  (trace (main Mock.env (with_train_batch_size 0 default_FLAGS)
                            (init Mock.empty_disk)).2))
    by (apply is_retraining_log_In; vm_compute; reflexivity).
  assert (Hb : train_batch_size (with_train_batch_size 0 default_FLAGS) = 0)
    by reflexivity.
  split; [exact Hin|]. split; [exact Hb|].
  destruct (divisions_decide_the_training Mock.env (with_train_batch_size 0 default_FLAGS)
              Mock.empty_disk Hin) as [H _].
  exact (H Hb).
Defined.

Lemma checkpoints_are_written_where_main_made_room_witness :
  (main Mock.env default_FLAGS (init Mock.empty_disk)).1 = Return tt
  /\ exists timestamp m g spe ep vd vs,
       In (time_strftime_ev "%Y%m%d-%H%M%S" (Return timestamp))
          (trace (main Mock.env default_FLAGS (init Mock.empty_disk)).2)
       /\ In (fit_generator_ev m g spe ep vd vs
                [ ModelCheckpoint
                    (os_path.join (checkpoint_dir default_FLAGS) "checkpoint.pb") 1;
                  TensorBoard (os_path.join (summaries_dir default_FLAGS) timestamp)
                    true true 0 ]
                (Return tt))
             (trace (main Mock.env default_FLAGS (init Mock.empty_disk)).2).
Proof.
  assert (Hr : (main Mock.env default_FLAGS (init Mock.empty_disk)).1 = Return tt)
    by (vm_compute; reflexivity).
  split; [exact Hr|].
  destruct (checkpoints_are_written_where_main_made_room Mock.env default_FLAGS
              Mock.empty_disk) as (_ & H & _).
  exact (H Hr).
Defined.

Lemma checkpoint_dir_location_witness :
  "tf_files/models/retrained" <> ""
  /\ os_path.endswith "/" "tf_files/models/retrained" = false
  /\ no_slash "" = true
  /\ model_dir (with_model_dir "tf_files/models/retrained/" default_FLAGS)
     = "tf_files/models/retrained" +:+ "/" +:+ ""
  /\ checkpoint_dir (with_model_dir "tf_files/models/retrained/" default_FLAGS)
     = "tf_files/models/retrained" +:+ "/checkpoints".
Proof.
  assert (Hp : "tf_files/models/retrained" <> "") by discriminate.
  assert (He : os_path.endswith "/" "tf_files/models/retrained" = false) by reflexivity.
  assert (Hb : no_slash "" = true) by reflexivity.
  assert (Hm : model_dir (with_model_dir "tf_files/models/retrained/" default_FLAGS)
               = "tf_files/models/retrained" +:+ "/" +:+ "") by reflexivity.
  split; [exact Hp|]. split; [exact He|]. split; [exact Hb|]. split; [exact Hm|].
  destruct (checkpoint_dir_location
              (with_model_dir "tf_files/models/retrained/" default_FLAGS)) as [_ H].
  exact (H "tf_files/models/retrained" "" Hp He Hb Hm).
Defined.

(** With the default [model_dir] the checkpoint directory is its sibling. *)
Example default_checkpoint_dir : checkpoint_dir default_FLAGS = "tf_files/models/checkpoints".
Proof. reflexivity. Qed.

Lemma bare_labels_file_creates_empty_path_witness :
  no_slash "labels.npy" = true
  /\ exists r rest,
       trace (save_labels_to_file Mock.env three_classes "labels.npy"
                (init Mock.empty_disk)).2
       = os_makedirs_ev "" true r :: rest.
Proof.
  assert (H : no_slash "labels.npy" = true) by reflexivity.
  split; [exact H|].
  exact (bare_labels_file_creates_empty_path Mock.env three_classes "labels.npy"
           Mock.empty_disk H).
Defined.

(** In the test double, as on a POSIX system, creating the empty path
    fails: the labels are not written. *)
Example bare_labels_file_fails :
  (save_labels_to_file Mock.env three_classes "labels.npy" (init Mock.empty_disk)).1
  = Raise (OtherError "FileNotFoundError").
Proof. vm_compute. reflexivity. Qed.

Lemma evaluate_model_needs_two_scores_witness :
  exists m,
    In (evaluate_generator_ev m three_classes None (Return [float_0_9]))
       (trace (evaluate_model loss_only_env "checkpoints/1541240000" three_classes
                 (init exported_disk)).2)
    /\ length [float_0_9] <> 2%nat
    /\ (evaluate_model loss_only_env "checkpoints/1541240000" three_classes
          (init exported_disk)).1 = Raise ValueError.
Proof.
  assert (Hin : exists m,
             In (evaluate_generator_ev m three_classes None (Return [float_0_9]))
                (trace (evaluate_model loss_only_env "checkpoints/1541240000" three_classes
                          (init exported_disk)).2))
    by (vm_compute; eexists; right; right; left; reflexivity).
  assert (Hlen : length [float_0_9] <> 2%nat) by discriminate.
  destruct Hin as [m Hin]. exists m.
  split; [exact Hin|]. split; [exact Hlen|].
  destruct (evaluate_model_needs_two_scores loss_only_env "checkpoints/1541240000"
              three_classes exported_disk) as [_ H].
  exact (H m three_classes None [float_0_9] Hin Hlen).
Defined.

Lemma add_classifier_needs_two_layers_witness :
  exists inputs outputs m,
    In (keras_Model_ev inputs outputs (Return m))
       (trace (add_classifier single_layer_env mock_base_model 5 (init Mock.empty_disk)).2)
    /\ (length (model_layers m) < 2)%nat
    /\ (add_classifier single_layer_env mock_base_model 5 (init Mock.empty_disk)).1
       = Raise IndexError.
Proof.
  assert (Hin : exists inputs outputs m,
             In (keras_Model_ev inputs outputs (Return m))
                (trace (add_classifier single_layer_env mock_base_model 5
                          (init Mock.empty_disk)).2)
             /\ (length (model_layers m) < 2)%nat).
  { vm_compute. eexists _, _, _. split; [right; right; left; reflexivity|].
    apply le_n. }
  destruct Hin as (inputs & outputs & m & Hin & Hlen). exists inputs, outputs, m.
  split; [exact Hin|]. split; [exact Hlen|].
  destruct (add_classifier_needs_two_layers single_layer_env mock_base_model 5
              Mock.empty_disk inputs outputs m Hin Hlen) as [H _].
  exact H.
Defined.

Lemma create_model_freezes_then_unfreezes_head_witness :
  exists m,
    (create_model Mock.env 5 [224; 224; 3] float_0_01 (Some "sgd") false
       (init Mock.empty_disk)).1 = Return m
    /\ exists base_model classifier,
         assignments
           (trace (create_model Mock.env 5 [224; 224; 3] float_0_01 (Some "sgd") false
                     (init Mock.empty_disk)).2)
         = map (fun l => (l, false)) (model_layers base_model) ++ [(classifier, true)].
Proof.
  assert (Hr : exists m,
             (create_model Mock.env 5 [224; 224; 3] float_0_01 (Some "sgd") false
                (init Mock.empty_disk)).1 = Return m)
    by (vm_compute; eexists; reflexivity).
  destruct Hr as [m Hr]. exists m. split; [exact Hr|].
  destruct (create_model_freezes_then_unfreezes_head Mock.env 5 [224; 224; 3] float_0_01
              (Some "sgd") false Mock.empty_disk m Hr)
    as (t & base_model & classifier & _ & _ & H & _).
  exists base_model, classifier. exact H.
Defined.

Lemma create_data_feeders_augments_training_only_witness :
  exists feeders,
    (create_data_feeders Mock.env "train" "val" "test" 100 224 (init Mock.empty_disk)).1
    = Return feeders
    /\ trace (create_data_feeders Mock.env "train" "val" "test" 100 224
                (init Mock.empty_disk)).2
       = [ flow_from_directory_ev train_datagen "train" (224, 224) 100 "categorical"
             (Return feeders.1.1);
           flow_from_directory_ev plain_datagen "val" (224, 224) 100 "categorical"
             (Return feeders.1.2);
           flow_from_directory_ev plain_datagen "test" (224, 224) 100 "categorical"
             (Return feeders.2) ].
Proof.
  assert (Hr : exists feeders,
             (create_data_feeders Mock.env "train" "val" "test" 100 224
                (init Mock.empty_disk)).1 = Return feeders)
    by (vm_compute; eexists; reflexivity).
  destruct Hr as [feeders Hr]. exists feeders. split; [exact Hr|].
  destruct (create_data_feeders_augments_training_only Mock.env "train" "val" "test" 100 224
              Mock.empty_disk) as [_ H].
  exact (proj1 (H feeders Hr)).
Defined.

Lemma inverted_labels_keep_the_last_label_witness :
  ~ In 0 (dict_values [("C", 2)])
  /\ dict_get (invert ([("A", 0)] ++ ("B", 0) :: [("C", 2)])) 0 = Some "B".
Proof.
  assert (H : ~ In 0 (dict_values [("C", 2)])) by (intros [H|[]]; discriminate H).
  split; [exact H|].
  exact (inverted_labels_keep_the_last_label [("A", 0)] [("C", 2)] "B" 0 H).
Defined.
